(** * architect.d.ts: the ambient declarations of module "AR"

    The repository is one TypeScript declaration file, [architect.d.ts].
    It is embedded here as the syntax tree of its declarations: type
    expressions, parameters, members, classes, constants and type aliases,
    each written down from the source in source order.  The functions over
    that tree (names declared, names referenced, superclass chains, handler
    names, bodies) are what the statements below are about. *)

From Stdlib Require Import List String Ascii Bool Arith Lia Relations.
Import ListNotations.
Open Scope string_scope.
Local Set Warnings "-register-all".

(** ** Syntax of the declaration file *)

Module TS.

(** Keyword types.  The file writes [number], [string], [boolean], [void]
    and [any]; [null] and [undefined] are the two a signature would need to
    say that a value may be absent. *)
Inductive prim : Type :=
  Pnumber | Pstring | Pboolean | Pvoid | Pany | Pnull | Pundefined.

(** Member modifiers the file uses. *)
Inductive modifier : Type := Public | Readonly.

(** A function or method body, had the file any: its statements as text. *)
Definition block : Type := list string.

(** Type expressions, parameters and members.  A member of a class body and
    a member of an object type literal are the same thing here: a property
    signature, a method signature or (classes only) a constructor. *)
Inductive ty : Type :=
| TPrim (p : prim)
| TRef (name : string)
| TLit (lit : string)
| TArray (elem : ty)
| TUnion (alts : list ty)
| TFun (params : list param) (ret : ty)
| TObj (members : list member)
with param : Type :=
| Param (rest : bool) (name : string) (optional : bool) (pty : option ty)
with member : Type :=
| Field (doc : list string) (mods : list modifier) (name : string)
        (optional : bool) (fty : ty)
| Method (doc : list string) (name : string) (params : list param)
         (ret : option ty) (body : option block)
| Ctor (doc : list string) (params : list param) (body : option block).

Record class : Type := Class {
  c_doc : list string;
  c_name : string;
  c_extends : option string;
  c_implements : list string;
  c_members : list member
}.

(** Top-level declarations of a module.  The file uses the first three;
    functions and interfaces are what else an ambient module may hold. *)
Inductive decl : Type :=
| DType (name : string) (rhs : ty)
| DConst (name : string) (cty : ty) (init : option string)
| DClass (c : class)
| DFunction (name : string) (params : list param) (ret : option ty)
            (body : option block)
| DInterface (name : string) (bases : list string) (members : list member).

Record module : Type := Module_ {
  m_name : string;
  m_decls : list decl
}.

(** *** Shorthands for writing the declarations as the source has them *)

Definition tnumber : ty := TPrim Pnumber.
Definition tstring : ty := TPrim Pstring.
Definition tboolean : ty := TPrim Pboolean.
Definition tvoid : ty := TPrim Pvoid.
Definition tany : ty := TPrim Pany.

(** [name: t], [name?: t], [name] and [...name: t] in a parameter list. *)
Definition arg (n : string) (t : ty) : param := Param false n false (Some t).
Definition arg_opt (n : string) (t : ty) : param := Param false n true (Some t).
Definition arg_untyped (n : string) : param := Param false n false None.
Definition arg_rest (n : string) (t : ty) : param := Param true n false (Some t).

(** [name: t;], [name?: t;], [public name: t;], [readonly name: t;]. *)
Definition fld (n : string) (t : ty) : member := Field [] [] n false t.
Definition fld_opt (n : string) (t : ty) : member := Field [] [] n true t.
Definition pub (n : string) (t : ty) : member := Field [] [Public] n false t.
Definition ro (n : string) (t : ty) : member := Field [] [Readonly] n false t.

(** [name(ps): r;], [name(ps);] (no return type written) and
    [constructor(ps)]; none is followed by a body. *)
Definition meth (n : string) (ps : list param) (r : ty) : member :=
  Method [] n ps (Some r) None.
Definition meth_untyped (n : string) (ps : list param) : member :=
  Method [] n ps None None.
Definition ctor (ps : list param) : member := Ctor [] ps None.

(** [() => void] *)
Definition thunk : ty := TFun [] tvoid.

(** *** Reading a tree *)

Definition member_doc (m : member) : list string :=
  match m with
  | Field d _ _ _ _ | Method d _ _ _ _ | Ctor d _ _ => d
  end.

(** The name a member declares; a constructor declares none. *)
Definition member_name (m : member) : option string :=
  match m with
  | Field _ _ n _ _ | Method _ n _ _ _ => Some n
  | Ctor _ _ _ => None
  end.

Definition param_name (p : param) : string :=
  match p with Param _ n _ _ => n end.

Definition param_optional (p : param) : bool :=
  match p with Param _ _ o _ => o end.


(** Every type name a type expression, parameter or member refers to, in
    source order (keyword types are not names). *)
Fixpoint ty_refs (t : ty) : list string :=
  match t with
  | TPrim _ | TLit _ => []
  | TRef n => [n]
  | TArray e => ty_refs e
  | TUnion ts => flat_map ty_refs ts
  | TFun ps r => flat_map param_refs ps ++ ty_refs r
  | TObj ms => flat_map member_refs ms
  end
with param_refs (p : param) : list string :=
  match p with
  | Param _ _ _ (Some t) => ty_refs t
  | Param _ _ _ None => []
  end
with member_refs (m : member) : list string :=
  match m with
  | Field _ _ _ _ t => ty_refs t
  | Method _ _ ps r _ =>
      flat_map param_refs ps ++ match r with Some t => ty_refs t | None => [] end
  | Ctor _ ps _ => flat_map param_refs ps
  end.

(** Every member found in a type expression, at any depth: the members of
    object type literals, and of the literals nested in their types. *)
Fixpoint ty_members (t : ty) : list member :=
  match t with
  | TPrim _ | TRef _ | TLit _ => []
  | TArray e => ty_members e
  | TUnion ts => flat_map ty_members ts
  | TFun ps r => flat_map param_members ps ++ ty_members r
  | TObj ms => flat_map member_members ms
  end
with param_members (p : param) : list member :=
  match p with
  | Param _ _ _ (Some t) => ty_members t
  | Param _ _ _ None => []
  end
with member_members (m : member) : list member :=
  m :: match m with
       | Field _ _ _ _ t => ty_members t
       | Method _ _ ps r _ =>
           flat_map param_members ps
           ++ match r with Some t => ty_members t | None => [] end
       | Ctor _ ps _ => flat_map param_members ps
       end.

(** *** Declarations and modules *)

Definition decl_name (d : decl) : string :=
  match d with
  | DType n _ | DConst n _ _ | DFunction n _ _ _ | DInterface n _ _ => n
  | DClass c => c_name c
  end.

(** The names a module declares, in source order. *)
Definition declared (ds : list decl) : list string := map decl_name ds.

Definition classes (ds : list decl) : list class :=
  flat_map (fun d => match d with DClass c => [c] | _ => [] end) ds.

Definition consts (ds : list decl) : list decl :=
  filter (fun d => match d with DConst _ _ _ => true | _ => false end) ds.

Definition type_aliases (ds : list decl) : list decl :=
  filter (fun d => match d with DType _ _ => true | _ => false end) ds.

Definition class_names (ds : list decl) : list string :=
  map c_name (classes ds).

Definition find_class (ds : list decl) (n : string) : option class :=
  find (fun c => String.eqb (c_name c) n) (classes ds).

Definition mem (n : string) (l : list string) : bool :=
  existsb (String.eqb n) l.

(** The members a declaration lists itself: a class body, an interface
    body, or the object type a constant is declared with. *)
Definition own_members (d : decl) : list member :=
  match d with
  | DClass c => c_members c
  | DInterface _ _ ms => ms
  | DConst _ (TObj ms) _ => ms
  | _ => []
  end.

(** Every member of a declaration, at any depth. *)
Definition decl_members (d : decl) : list member :=
  match d with
  | DType _ t | DConst _ t _ => ty_members t
  | DClass c => flat_map member_members (c_members c)
  | DFunction _ ps r _ =>
      flat_map param_members ps
      ++ match r with Some t => ty_members t | None => [] end
  | DInterface _ _ ms => flat_map member_members ms
  end.

(** Every type name a declaration refers to: its [extends] and
    [implements] clauses and the types of its signatures. *)
Definition decl_refs (d : decl) : list string :=
  match d with
  | DType _ t | DConst _ t _ => ty_refs t
  | DClass c =>
      match c_extends c with Some p => [p] | None => [] end
      ++ c_implements c ++ flat_map member_refs (c_members c)
  | DFunction _ ps r _ =>
      flat_map param_refs ps
      ++ match r with Some t => ty_refs t | None => [] end
  | DInterface _ bs ms => bs ++ flat_map member_refs ms
  end.



(** *** Executable content *)

Definition member_body (m : member) : option block :=
  match m with
  | Field _ _ _ _ _ => None
  | Method _ _ _ _ b | Ctor _ _ b => b
  end.

(** What of a declaration would run: the body of a function, the
    initialiser of a constant, the body of any method or constructor. *)
Definition decl_code (d : decl) : list block :=
  match d with
  | DFunction _ _ _ (Some b) => [b]
  | DConst _ _ (Some e) => [[e]]
  | _ => []
  end
  ++ flat_map (fun m => match member_body m with Some b => [b] | None => [] end)
       (decl_members d).

Inductive decl_kind : Type := KType | KConst | KClass | KFunction | KInterface.

Definition kind_of (d : decl) : decl_kind :=
  match d with
  | DType _ _ => KType
  | DConst _ _ _ => KConst
  | DClass _ => KClass
  | DFunction _ _ _ _ => KFunction
  | DInterface _ _ _ => KInterface
  end.

(** *** The class hierarchy *)

(** The superclass the class declared under name [n] names, if any. *)
Definition parent (ds : list decl) (n : string) : option string :=
  match find_class ds n with
  | Some c => c_extends c
  | None => None
  end.

(** [Extends ds n p]: a class of [ds] named [n] has the clause [extends p]. *)
Inductive Extends (ds : list decl) : string -> string -> Prop :=
| Extends_intro (c : class) (p : string) :
    In c (classes ds) -> c_extends c = Some p -> Extends ds (c_name c) p.

(** Directly or through a chain of declared superclasses. *)
Definition Descends (ds : list decl) : string -> string -> Prop :=
  clos_trans string (Extends ds).

(** The chain of superclasses above [n], nearest first; [None] when the
    fuel runs out before the chain ends. *)
Fixpoint chain (ds : list decl) (fuel : nat) (n : string)
  : option (list string) :=
  match fuel with
  | O => None
  | S f =>
      match parent ds n with
      | None => Some []
      | Some p => option_map (cons p) (chain ds f p)
      end
  end.

Definition descendsb (ds : list decl) (n a : string) : bool :=
  match chain ds (S (List.length ds)) n with
  | Some l => mem a l
  | None => false
  end.

(** *** Documentation and absent results *)

Definition contains (needle s : string) : bool :=
  match index 0 needle s with Some _ => true | None => false end.

Definition doc_mentions (needle : string) (doc : list string) : bool :=
  existsb (contains needle) doc.

(** A doc comment that promises a result in words: the two such comments
    of the file both say which value [will be returned] when the operation
    cannot deliver. *)
Definition documents_result (m : member) : bool :=
  doc_mentions "will be returned" (member_doc m).

(** A type expression that names [null] or [undefined]. *)
Fixpoint ty_absent (t : ty) : bool :=
  match t with
  | TPrim Pnull | TPrim Pundefined => true
  | TPrim _ | TRef _ | TLit _ | TFun _ _ | TObj _ => false
  | TArray e => ty_absent e
  | TUnion ts => existsb ty_absent ts
  end.

Definition method_ret (m : member) : option ty :=
  match m with
  | Method _ _ _ r _ => r
  | _ => None
  end.

Definition member_params (m : member) : list param :=
  match m with
  | Field _ _ _ _ _ => []
  | Method _ _ ps _ _ | Ctor _ ps _ => ps
  end.


Definition named (n : string) (m : member) : bool :=
  match member_name m with
  | Some n' => String.eqb n n'
  | None => false
  end.

Definition find_member (n : string) (ms : list member) : option member :=
  find (named n) ms.

Definition member_optional (m : member) : bool :=
  match m with
  | Field _ _ _ o _ => o
  | _ => false
  end.

Definition field_ty (m : member) : option ty :=
  match m with
  | Field _ _ _ _ t => Some t
  | _ => None
  end.



(** Every parameter of a declaration's signatures, at any depth: of its
    methods and constructors, and of the function types in its types. *)
Fixpoint ty_params (t : ty) : list param :=
  match t with
  | TPrim _ | TRef _ | TLit _ => []
  | TArray e => ty_params e
  | TUnion ts => flat_map ty_params ts
  | TFun ps r => flat_map param_params ps ++ ty_params r
  | TObj ms => flat_map member_all_params ms
  end
with param_params (p : param) : list param :=
  p :: match p with
       | Param _ _ _ (Some t) => ty_params t
       | Param _ _ _ None => []
       end
with member_all_params (m : member) : list param :=
  match m with
  | Field _ _ _ _ t => ty_params t
  | Method _ _ ps r _ =>
      flat_map param_params ps
      ++ match r with Some t => ty_params t | None => [] end
  | Ctor _ ps _ => flat_map param_params ps
  end.

Definition decl_params (d : decl) : list param :=
  match d with
  | DType _ t | DConst _ t _ => ty_params t
  | DClass c => flat_map member_all_params (c_members c)
  | DFunction _ ps r _ =>
      flat_map param_params ps
      ++ match r with Some t => ty_params t | None => [] end
  | DInterface _ _ ms => flat_map member_all_params ms
  end.

(** Equality of two lists of names. *)
Fixpoint forallb2_eq (l1 l2 : list string) : bool :=
  match l1, l2 with
  | [], [] => true
  | x :: r1, y :: r2 => String.eqb x y && forallb2_eq r1 r2
  | _, _ => false
  end.

(** *** Gesture handlers *)

(** A scale-gesture handler, however its name is capitalised. *)
Definition scale_handler (n : string) : bool :=
  prefix "onScale" n || prefix "onscale" n.

Definition own_names (d : decl) : list string :=
  flat_map (fun m => match member_name m with Some n => [n] | None => [] end)
           (own_members d).

Definition carries_scale (d : decl) : bool :=
  existsb scale_handler (own_names d).

(** Every name a declaration gives to a member or a parameter, at any
    depth. *)
Definition all_names (d : decl) : list string :=
  flat_map (fun m => match member_name m with Some n => [n] | None => [] end)
           (decl_members d)
  ++ map param_name (decl_params d).

End TS.

(** ** The declarations of [architect.d.ts], in source order *)

Module AR.
Import TS.

(** The double quote character, for the doc comments that quote a phrase. *)
Definition dq : string := String (ascii_of_nat 34) EmptyString.

(** The callback shapes the file writes out again and again. *)
Definition click_cb : ty := TFun [arg "arObject" (TRef "ARObject")] tvoid.
Definition drag_cb : ty :=
  TFun [arg "xNormalized" tnumber; arg "yNormalized" tnumber;
        arg "xIntersection" tnumber; arg "yIntersection" tnumber] tvoid.
Definition pan_cb : ty :=
  TFun [arg "xNormalized" tnumber; arg "yNormalized" tnumber] tvoid.
Definition angle_cb : ty := TFun [arg "angle" tnumber] tvoid.
Definition scale_cb : ty := TFun [arg "scale" tnumber] tvoid.
Definition plane_cb : ty :=
  TFun [arg "xIntersection" tnumber; arg "yIntersection" tnumber] tvoid.

(* lines 3-5 *)
Definition RecognizedCallback : decl :=
  DType "RecognizedCallback"
    (TFun [arg "recognized" tboolean;
           arg "recognitionData"
             (TObj [fld_opt "targetInfo" tany; fld_opt "metadata" tany])]
          tvoid).

Definition InterruptionCallback : decl :=
  DType "InterruptionCallback"
    (TFun [arg_opt "suggestedInterval" tnumber] tvoid).

Definition ErrorCallback : decl :=
  DType "ErrorCallback"
    (TFun [arg "code" tnumber; arg "errorObject" (TRef "Error")] tvoid).

(* lines 7-20 *)
Definition CONST : decl :=
  DConst "CONST"
    (TObj [
      fld "ANIMATION_GROUP_TYPE"
        (TObj [fld "PARALLEL" (TLit "parallel");
               fld "SEQUENTIAL" (TLit "sequential")]);
      fld "CAMERA_FOCUS_MODE"
        (TObj [fld "ONCE" tstring; fld "CONTINUOUS" tstring; fld "OFF" tstring]);
      fld "CAMERA_POSITION" (TObj [fld "FRONT" tstring; fld "BACK" tstring]);
      fld "CLICK_BEHAVIOR"
        (TObj [fld "CLICK" tstring; fld "TOUCH_UP" tstring;
               fld "TOUCH_DOWN" tstring]);
      fld "CLOUD_RECOGNITION_SERVER_REGION"
        (TObj [fld "AMERICAS" tstring; fld "CHINA" tstring;
               fld "EUROPE" tstring]);
      fld "EASING_CURVE_TYPE" (TRef "EASING_CURVE_TYPE");
      fld "FONT_STYLE"
        (TObj [fld "NORMAL" tstring; fld "BOLD" tstring; fld "ITALIC" tstring]);
      fld "HORIZONTAL_ANCHOR"
        (TObj [fld "LEFT" tstring; fld "CENTER" tstring; fld "RIGHT" tstring]);
      fld "LOCATION_ACCURACY"
        (TObj [fld "HIGH" tstring; fld "MEDIUM" tstring; fld "LOW" tstring]);
      fld "STATE"
        (TObj [fld "INITIALIZED" tstring; fld "LOADING" tstring;
               fld "LOADED" tstring; fld "PLAYING" tstring;
               fld "ERROR" tstring]);
      fld "UNKNOWN_ALTITUDE" tnumber;
      fld "VERTICAL_ANCHOR"
        (TObj [fld "TOP" tnumber; fld "MIDDLE" tnumber; fld "BOTTOM" tnumber])
    ])
    None.

(* lines 22-28 *)
Definition ARchitectObject : class :=
  Class
    ["ARchitectObject is the base class for each object created through the ARchitect."]
    "ARchitectObject" None []
    [ fld "destroyed" tboolean;
      meth "destroy" [] tvoid ].

(* lines 30-51 *)
Definition ActionArea : class :=
  Class
    ["An ActionArea defines a certain geo area where actions should be executed on enter and on exit. An ActionArea is a 2-dimensional area, altitude will be ignored. As soon as the user enters the ActionArea, onEnter() will be executed (in case the function is defined). When the user leaves the ActionArea, onExit() will be executed (in case the function is defined)."]
    "ActionArea" (Some "ARchitectObject") []
    [ fld "enabled" tboolean;
      Method
        ["checks if a certain location is within this ActionArea.";
         "@param geoLocation - the GeoLocation that should be checked.";
         "@returns {boolean} true if the geoLocation passed to the method is within the ActionArea, false if the geoLocation passed to the method is not in the ActionArea"]
        "isInArea" [arg "geoLocation" (TRef "Geolocation")] (Some tboolean) None;
      Field ["The trigger is executed when the user enters the ActionArea."]
        [] "onEnter" true thunk;
      Field ["The trigger is executed when the user leaves the ActionArea."]
        [] "onExit" true thunk ].

(* lines 53-72 *)
Definition ActionRange : class :=
  Class
    ["An ActionRange defines a circle around a certain Location. Events are fired as soon as the user enters or leaves this circle."]
    "ActionRange" (Some "ActionArea") []
    [ pub "location" (TRef "Location");
      pub "radius" tnumber;
      Ctor
        ["@param location - a single Location defining the center point of the circle.";
         "@param radius - the radius of the ActionRange in meters.";
         "@param options - Setup-Parameters to customize additional object properties."]
        [arg "location" (TRef "Location");
         arg "radius" tnumber;
         arg "options"
           (TObj [fld "enabled" tboolean; fld_opt "onEnter" thunk;
                  fld_opt "onExit" thunk])]
        None ].

(* lines 75-96 *)
Definition Drawable : class :=
  Class [] "Drawable" (Some "ARchitectObject") ["DrawableOptions"]
    [ pub "enabled" tboolean;
      pub "mirrored" tboolean;
      pub "rotate" (TRef "Vector3");
      pub "rotatesToCamera" tboolean;
      pub "scale" (TRef "Vector3");
      pub "translate" (TRef "Vector3");
      fld_opt "onClick" click_cb;
      fld_opt "onDragBegan" drag_cb;
      fld_opt "onDragChanged" drag_cb;
      fld_opt "onDragEnded" drag_cb;
      fld_opt "onPanBegan" pan_cb;
      fld_opt "onPanChanged" pan_cb;
      fld_opt "onPanEnded" pan_cb;
      fld_opt "onRotationBegan" angle_cb;
      fld_opt "onRotationChanged" angle_cb;
      fld_opt "onRotationEnded" angle_cb;
      fld_opt "onScaleBegan" scale_cb;
      fld_opt "onScaleChanged" scale_cb;
      fld_opt "onscaleEnded" scale_cb ].

(* lines 98-108 *)
Definition Drawable2D : class :=
  Class [] "Drawable2D" (Some "Drawable") ["Drawable2DOptions"]
    [ fld "horizontalAnchor" tnumber;
      fld "verticalAnchor" tnumber;
      fld "zOrder" tnumber;
      fld "opacity" tnumber;
      Method
        ["Returns the BoundingRectangle for this Drawable2D. In case of an error, null will be returned.";
         "@returns {BoundingRectangle} - the BoundingRectangle for the Drawable2D."]
        "getBoundingRectangle" [] (Some (TRef "BoundingRectangle")) None ].

(* lines 110-115 *)
Definition ImageDrawable : class :=
  Class [] "ImageDrawable" (Some "Drawable2D") []
    [ pub "height" tnumber;
      pub "imageResource" (TRef "ImageResource");
      ctor [arg "imageResource" (TRef "ImageResource");
            arg "height" tnumber;
            arg "options" (TRef "Drawable2DOptions")] ].

(* lines 117-128 *)
Definition AnimatedImageDrawable : class :=
  Class [] "AnimatedImageDrawable" (Some "ImageDrawable") []
    [ ctor [arg "imageResource" (TRef "ImageResource");
            arg "height" tnumber;
            arg "keyFrameWidth" tnumber;
            arg "keyFrameHeight" tnumber;
            arg_opt "options" (TRef "Drawable2DOptions")];
      meth_untyped "animate"
        [arg "keyFrames" (TArray tnumber); arg "duration" tnumber;
         arg_opt "loopTimes" tnumber];
      meth_untyped "setKeyFrame" [arg "keyFramePos" tnumber] ].

(* lines 131-151 *)
Definition ARObject : class :=
  Class [] "ARObject" (Some "ARchitectObject") []
    [ fld "drawables" (TRef "ARObjectDrawables");
      fld "enabled" tboolean;
      fld "renderingOrder" tnumber;
      meth "isVisible" [] tboolean;
      fld_opt "onClick" click_cb;
      fld_opt "onDragBegan" drag_cb;
      fld_opt "onDragChanged" drag_cb;
      fld_opt "onDragEnded" drag_cb;
      fld_opt "onPanBegan" pan_cb;
      fld_opt "onPanChanged" pan_cb;
      fld_opt "onPanEnded" pan_cb;
      fld_opt "onRotationBegan" angle_cb;
      fld_opt "onRotationChanged" angle_cb;
      fld_opt "onRotationEnded" angle_cb;
      fld_opt "onScaleBegan" scale_cb;
      fld_opt "onScaleChanged" scale_cb;
      fld_opt "onscaleEnded" scale_cb ].

(* lines 153-157 *)
Definition ARObjectDrawables : class :=
  Class [] "ARObjectDrawables" None []
    [ fld "cam" (TArray (TRef "Drawable"));
      fld "addCamDrawable"
        (TFun [arg "drawable"
                 (TUnion [TRef "Drawable"; TArray (TRef "Drawable")]);
               arg "position" tnumber] tvoid);
      fld "removeCamDrawable"
        (TFun [arg "drawableOrPosition"
                 (TUnion [TRef "Drawable"; TArray (TRef "Drawable"); tnumber])]
              tvoid) ].

(* lines 159-168 *)
Definition Animation : class :=
  Class [] "Animation" (Some "ARchitectObject") []
    [ meth "isRunning" [] tboolean;
      meth "pause" [] tvoid;
      meth "resume" [] tvoid;
      meth "start" [] tvoid;
      meth "stop" [] tvoid;
      fld_opt "onStart" thunk;
      fld_opt "onFinish" thunk ].

(* lines 170-176 *)
Definition AnimationGroup : class :=
  Class [] "AnimationGroup" (Some "Animation") []
    [ ctor [arg "type" tstring;
            arg "animations" (TArray (TRef "Animation"));
            arg "options"
              (TObj [fld_opt "onStart" thunk; fld_opt "onFinish" thunk])] ].

(* lines 178-188 *)
Definition ImageResource : class :=
  Class [] "ImageResource" (Some "ARchitectObject") []
    [ ctor [arg "uri" tstring;
            arg "options"
              (TObj [fld_opt "onLoaded" thunk; fld_opt "onError" tvoid])];
      meth "getHeight" [] tnumber;
      meth "getWidth" [] tnumber;
      meth "getUri" [] tstring;
      meth "isLoaded" [] tboolean;
      fld_opt "onLoaded" thunk;
      fld_opt "onError" thunk ].

(* lines 190-193 *)
Definition BoundingRectangle : class :=
  Class [] "BoundingRectangle" None []
    [ meth "getWidth" [] tnumber;
      meth "getHeight" [] tnumber ].

(* lines 195-212 *)
Definition Location : class :=
  Class
    ["Location is an abstract class which describes a general location of a POI in the augmented scene."]
    "Location" (Some "ARchitectObject") []
    [ Method
        ["Returns the shortest distance (" ++ dq ++ "as the crow flies" ++ dq
           ++ ") to the Location passed as an argument, ignoring any altitude property.";
         "@param {Location} location - The Location the distance should be calculated for.";
         "@returns {number} - The numeric distance in meters."]
        "distanceTo" [arg "location" (TRef "Location")] (Some tnumber) None;
      Method
        ["Returns the shortest distance (" ++ dq ++ "as the crow flies" ++ dq
           ++ ") to the current location of the user, ignoring any altitude property.";
         "If the current position of the user cannot be determined, undefined will be returned.";
         "@returns {number|undefined}"]
        "distanceToUser" [] (Some tnumber) None ].

(* lines 214-232 *)
Definition GeoLocation : class :=
  Class
    ["Every instance of GeoLocation represents a location in the earth's three-dimensional space.";
     "@param {number} latitude - The latitude of the location, in decimal degrees.";
     "@param {number} longitude - The longitude of the location, in decimal degrees.";
     "@param {number} altitude - The altitude of the location, in meters."]
    "GeoLocation" (Some "Location") []
    [ pub "latitude" tnumber;
      pub "longitude" tnumber;
      pub "altitude" tnumber;
      ctor [arg "latitude" tnumber; arg "longitude" tnumber;
            arg "altitude" tnumber] ].

(* lines 234-238 *)
Definition Circle : class :=
  Class [] "Circle" (Some "Drawable2D") []
    [ pub "radius" tnumber;
      pub "style"
        (TObj [fld "fillColor" tstring; fld "outlineSize" tnumber;
               fld "outlineColor" tstring]);
      ctor [arg "radius" tnumber; arg_opt "options" (TRef "Drawable2DOptions")] ].

(* lines 240-272; the drag handlers of [context] take two numbers only *)
Definition context : decl :=
  DConst "context"
    (TObj [
      meth_untyped "destroyAll" [];
      meth_untyped "openInBrowser"
        [arg "url" tstring; arg "forceNativeBrowser" tboolean];
      meth_untyped "setCloudRecognitionServerRegion"
        [arg "region" tstring;
         arg_opt "options"
           (TObj [fld "serverUrl" tstring; fld_opt "onSuccess" thunk;
                  fld_opt "onError" thunk])];
      meth_untyped "startVideoPlayer" [arg_untyped "uri"];
      fld "clickBehavior" tstring;
      fld "scene"
        (TObj [fld "cullingDistance" tnumber;
               fld "globalScale" tnumber;
               fld "maxScalingDistance" tnumber;
               fld "minScalingDistance" tnumber;
               fld "scalingFactor" tnumber;
               ro "versionNumber" tstring]);
      fld_opt "on2FingerGestureEnded" thunk;
      fld_opt "on2FingerGestureStarted" thunk;
      fld_opt "onDragBegan" pan_cb;
      fld_opt "onDragChanged" pan_cb;
      fld_opt "onDragEnded" pan_cb;
      fld_opt "onLocationChanged"
        (TFun [arg "latitude" tnumber; arg "longitude" tnumber;
               arg "altitude" tnumber; arg "accuracy" tnumber] tvoid);
      fld_opt "onPanBegan" pan_cb;
      fld_opt "onPanChanged" pan_cb;
      fld_opt "onPanEnded" pan_cb;
      fld_opt "onRotationBegan" angle_cb;
      fld_opt "onRotationChanged" angle_cb;
      fld_opt "onRotationEnded" angle_cb;
      fld_opt "onScaleBegan" scale_cb;
      fld_opt "onScaleChanged" scale_cb;
      fld_opt "onscaleEnded" scale_cb;
      fld_opt "onScreenClick" thunk
    ])
    None.

(* lines 274-290 *)
Definition hardware : decl :=
  DConst "hardware"
    (TObj [
      ro "camera"
        (TObj [fld "enabled" tboolean;
               fld "features" (TObj []);
               fld "flashlightAvailable" tboolean;
               fld "focusDistance" tnumber;
               fld "manualFocusAvailable" tnumber;
               fld "position" (TObj []);
               fld "zoom" tnumber]);
      ro "sensors"
        (TObj [fld "enabled" tboolean;
               fld "compass" (TObj [fld "correctionAngle" tnumber])])
    ])
    None.

(* lines 292-304 *)
Definition HtmlDrawable : class :=
  Class [] "HtmlDrawable" (Some "Drawable2D") []
    [ fld "allowDocumentLocationChanges" tboolean;
      fld "backgroundColor" tstring;
      fld "clickThroughEnabled" tstring;
      fld "html" tstring;
      fld "uri" tstring;
      fld "viewportHeight" tnumber;
      fld "viewportWidth" tnumber;
      fld "width" tnumber;
      ctor [arg "content" (TObj [fld_opt "html" tstring; fld_opt "uri" tstring]);
            arg "width" tnumber;
            arg_untyped "options"];
      meth_untyped "evalJavaScript" [arg "js" tstring] ].

(* lines 306-309 *)
Definition GeoObject : class :=
  Class [] "GeoObject" (Some "ARObject") []
    [ fld "drawables" (TRef "GeoObjectDrawables");
      ctor [arg "location"
              (TUnion [TRef "Location"; TArray (TRef "Location")]);
            arg_opt "options" (TRef "GeoObjectOptions")] ].

(* lines 311-322 *)
Definition GeoObjectDrawables : class :=
  Class [] "GeoObjectDrawables" (Some "ARObjectDrawables") []
    [ fld "indicator" (TArray (TRef "Drawable2D"));
      fld "radar" (TArray (TRef "Drawable2D"));
      fld "locations" (TArray (TRef "Location"));
      meth "addIndicatorDrawable"
        [arg "drawable"
           (TUnion [TRef "Drawable2D"; TArray (TRef "Drawable2D")]);
         arg "position" tnumber] tvoid;
      meth "addRadarDrawable"
        [arg "drawable"
           (TUnion [TRef "Drawable2D"; TArray (TRef "Drawable2D")]);
         arg "position" tnumber] tvoid;
      meth "removeIndicatorDrawable"
        [arg "drawableOrPosition"
           (TUnion [TRef "Drawable2D"; TArray (TRef "Drawable2D"); tnumber])]
        tvoid;
      fld_opt "onEnterFieldOfVision" thunk;
      fld_opt "onExitFieldOfVision" thunk ].

(* lines 324-329 *)
Definition EasingCurve : class :=
  Class [] "EasingCurve" (Some "ARchitectObject") []
    [ pub "amplitude" tnumber;
      pub "overshoot" tnumber;
      pub "period" tnumber;
      ctor [arg "type" tstring;
            arg_opt "options"
              (TObj [fld_opt "amplitude" tnumber; fld_opt "overshoot" tnumber;
                     fld_opt "period" tnumber])] ].

(* lines 331-337 *)
Definition logger : decl :=
  DConst "logger"
    (TObj [
      fld "activateDebugMode" thunk;
      fld "debug" (TFun [arg "message" tstring] tvoid);
      fld "error" (TFun [arg "message" tstring] tvoid);
      fld "info" (TFun [arg "message" tstring] tvoid);
      fld "warning" (TFun [arg "message" tstring] tvoid)
    ])
    None.

(* lines 339-341 *)
Definition platform : decl :=
  DConst "platform"
    (TObj [ meth_untyped "sendJSONObject" [arg "jsonData" tany] ])
    None.

(* lines 343-354 *)
Definition ImageTrackable : class :=
  Class [] "ImageTrackable" (Some "ARObject") []
    [ fld "aspectRatio" tnumber;
      fld "enableExtendedTracking" tboolean;
      fld "extendedTarget" tstring;
      fld "targetName" tstring;
      fld "tracker" (TRef "ImageTracker");
      ctor [arg "tracker" (TRef "ImageTracker");
            arg "targetName" tstring;
            arg "options" (TRef "ImageTrackableOptions")];
      meth_untyped "stopExtendedTracking" [];
      fld_opt "onExtendedTrackingQualityChanged"
        (TFun [arg "targetName" tstring; arg "previousQuality" tnumber;
               arg "newQuality" tnumber] tvoid) ].

(* lines 356-366 *)
Definition ImageTracker : class :=
  Class [] "ImageTracker" (Some "ARchitectObject") []
    [ fld_opt "enabled" tboolean;
      fld_opt "physicalTargetImageHeights" tany;
      ctor [arg "tracker" (TRef "TargetCollectionResource");
            arg_opt "options" (TRef "ImageTrackerOptions")];
      ctor [arg "tracker" (TRef "CloudRecognitionService");
            arg_opt "options" (TRef "ImageTrackerOptions")];
      fld_opt "onDisabled" thunk;
      fld_opt "onError" thunk;
      fld_opt "onTargetsLoaded" thunk ].

(* lines 368-374 *)
Definition ImageTrackerOptions : class :=
  Class [] "ImageTrackerOptions" None []
    [ fld_opt "enabled" tboolean;
      fld_opt "physicalTargetImageHeights" tany;
      fld_opt "onTargetsLoaded" thunk;
      fld_opt "onError" thunk;
      fld_opt "onDisabled" thunk ].

(* lines 376-385 *)
Definition TargetCollectionResource : class :=
  Class [] "TargetCollectionResource" (Some "ARchitectObject") []
    [ fld "loading" tboolean;
      fld "URL" tstring;
      ctor [arg "URL" tstring;
            arg_opt "options"
              (TObj [fld_opt "onLoaded" thunk; fld_opt "onError" thunk])];
      meth_untyped "cancel" [];
      fld_opt "onError" thunk;
      fld_opt "onLoaded" thunk ].

(* lines 387-397 *)
Definition CloudRecognitionService : class :=
  Class [] "CloudRecognitionService" (Some "ARchitectObject") []
    [ fld_opt "clientToken" tstring;
      fld_opt "targetCollectionId" tstring;
      meth "recognize"
        [arg_opt "onRecognized" (TRef "RecognizedCallback");
         arg_opt "onError" (TRef "ErrorCallback")] tvoid;
      meth "startContinuousRecognition"
        [arg "interval" tnumber;
         arg_opt "onInterruptionCallback" (TRef "InterruptionCallback");
         arg_opt "onRecognizedCallback" (TRef "RecognizedCallback");
         arg_opt "onErrorCallback" (TRef "ErrorCallback")] tvoid;
      meth "stopContinuousRecognition" [] tvoid;
      fld_opt "onError" thunk;
      fld_opt "onInitialized" thunk ].

(* lines 399-411 *)
Definition ImageTrackableOptions : class :=
  Class [] "ImageTrackableOptions" (Some "Drawable2DOptions") []
    [ fld_opt "renderingOrder" tnumber;
      fld_opt "onImageRecognised" thunk;
      fld_opt "onImageLost" thunk;
      fld_opt "drawables" (TObj [fld "cam" (TArray (TRef "Drawable"))]);
      fld_opt "distanceToTarget"
        (TObj [fld "changedThreshold" tnumber;
               fld_opt "onDistanceChanged" thunk]);
      fld_opt "enableExtendedTracking" tboolean;
      fld_opt "entendedTarget" tstring;
      fld_opt "extendedTrackingQualityChanged" thunk ].

(* lines 413-423 *)
Definition InstantTrackable : class :=
  Class [] "InstantTrackable" (Some "ARObject") []
    [ ro "tracker" (TRef "InstantTracker");
      ctor [arg "tacker" (TRef "InstantTracker");
            arg_opt "options" (TRef "InstantTrackableOptions")];
      fld_opt "onTrackingStarted" thunk;
      fld_opt "onTrackingStopped" thunk;
      fld_opt "onTrackingPlaneClick" plane_cb;
      fld_opt "onTrackingPlaneDragBegan" plane_cb;
      fld_opt "onTrackingPlaneDragChanged" plane_cb;
      fld_opt "onTrackingPlaneDragEnded" plane_cb ].

(* lines 425-438 *)
Definition InstantTrackableOptions : class :=
  Class [] "InstantTrackableOptions" (Some "_EVENT_HANDLERS") []
    [ fld_opt "enabled" tboolean;
      fld_opt "renderingOrder" tnumber;
      fld "drawables"
        (TObj [fld "cam" (TArray (TRef "Drawable"));
               fld "initialization" (TArray (TRef "Drawable"))]);
      fld_opt "onTrackingStarted" thunk;
      fld_opt "onTrackingStopped" thunk;
      fld_opt "onTrackingPlaneClick" plane_cb;
      fld_opt "onTrackingPlaneDragBegan" plane_cb;
      fld_opt "onTrackingPlaneDragChanged" plane_cb;
      fld_opt "onTrackingPlaneDragEnded" plane_cb ].

(* lines 440-458 *)
Definition InstantTracker : class :=
  Class [] "InstantTracker" (Some "ARchitectObject") []
    [ fld_opt "enabled" tboolean;
      fld_opt "state" tnumber;
      fld_opt "deviceHeight" tstring;
      ctor [arg_opt "options"
              (TObj [fld_opt "enabled" tboolean;
                     fld_opt "onError" thunk;
                     fld_opt "onDisabled" thunk;
                     fld_opt "onChangedState" thunk;
                     fld_opt "deviceHeight" tnumber])];
      fld_opt "onError" thunk;
      fld_opt "onDisabled" thunk;
      fld_opt "onChangedState" thunk ].

(* lines 460-504; the property names are written as string literals there *)
Definition EASING_CURVE_TYPE : class :=
  Class [] "EASING_CURVE_TYPE" None []
    [
      fld "LINEAR" (TLit "linear");
      fld "EASE_IN_QUAD" (TLit "easeInQuad");
      fld "EASE_OUT_QUAD" (TLit "easeOutQuad");
      fld "EASE_IN_OUT_QUAD" (TLit "easeInOutQuad");
      fld "EASE_OUT_IN_QUAD" (TLit "easeOutInQuad");
      fld "EASE_IN_CUBIC" (TLit "easeInCubic");
      fld "EASE_OUT_CUBIC" (TLit "easeOutCubic");
      fld "EASE_IN_OUT_CUBIC" (TLit "easeInOutCubic");
      fld "EASE_OUT_IN_CUBIC" (TLit "easeOutInCubic");
      fld "EASE_IN_QUAT" (TLit "easeInQuat");
      fld "EASE_OUT_QUAT" (TLit "easeOutQuat");
      fld "EASE_IN_OUT_QUAT" (TLit "easeInOutQuat");
      fld "EASE_OUT_IN_QUAT" (TLit "easeOutInQuat");
      fld "EASE_IN_QUINT" (TLit "easeInQuint");
      fld "EASE_OUT_QUINT" (TLit "easeOutQuint");
      fld "EASE_IN_OUT_QUINT" (TLit "easeInOutQuint");
      fld "EASE_OUT_IN_QUINT" (TLit "easeOutInQuint");
      fld "EASE_IN_ELASTIC" (TLit "easeInElastic");
      fld "EASE_OUT_ELASTIC" (TLit "easeOutElastic");
      fld "EASE_IN_OUT_ELASTIC" (TLit "easeInOutElastic");
      fld "EASE_OUT_IN_ELASTIC" (TLit "easeOutInElastic");
      fld "EASE_IN_BACK" (TLit "easeInBack");
      fld "EASE_OUT_BACK" (TLit "easeOutBack");
      fld "EASE_IN_OUT_BACK" (TLit "easeInOutBack");
      fld "EASE_OUT_IN_BACK" (TLit "easeOutInBack");
      fld "EASE_IN_SINE" (TLit "easeInSine");
      fld "EASE_OUT_SINE" (TLit "easeOutSine");
      fld "EASE_IN_OUT_SINE" (TLit "easeInOutSine");
      fld "EASE_OUT_IN_SINE" (TLit "easeOutInSine");
      fld "EASE_IN_EXPO" (TLit "easeInExpo");
      fld "EASE_OUT_EXPO" (TLit "easeOutExpo");
      fld "EASE_IN_OUT_EXPO" (TLit "easeInOutExpo");
      fld "EASE_OUT_IN_EXPO" (TLit "easeOutInExpo");
      fld "EASE_IN_CIRC" (TLit "easeInCirc");
      fld "EASE_OUT_CIRC" (TLit "easeOutCirc");
      fld "EASE_IN_OUT_CIRC" (TLit "easeInOutCirc");
      fld "EASE_OUT_IN_CIRC" (TLit "easeOutInCirc");
      fld "EASE_IN_BOUNCE" (TLit "easeInBounce");
      fld "EASE_OUT_BOUNCE" (TLit "easeOutBounce");
      fld "EASE_IN_OUT_BOUNCE" (TLit "easeInOutBounce");
      fld "EASE_OUT_IN_BOUNCE" (TLit "easeOutInBounce");
      fld "EASE_IN_CURVE" (TLit "easeInCurve");
      fld "EASE_OUT_CURVE" (TLit "easeOutCurve") ].

(* lines 506-513 *)
Definition DrawableOptions : class :=
  Class [] "DrawableOptions" (Some "_EVENT_HANDLERS") []
    [ fld_opt "enabled" tboolean;
      fld_opt "mirrored" tboolean;
      fld_opt "rotate" (TRef "Vector3");
      fld_opt "rotatesToCamera" tboolean;
      fld_opt "scale" (TRef "Vector3");
      fld_opt "translate" (TRef "Vector3") ].

(* lines 515-520 *)
Definition Drawable2DOptions : class :=
  Class [] "Drawable2DOptions" (Some "DrawableOptions") []
    [ fld_opt "opacity" tnumber;
      fld_opt "horizontalAnchor" tnumber;
      fld_opt "verticalAnchor" tnumber;
      fld_opt "zOrder" tnumber ].

(* lines 522-527 *)
Definition GeoObjectOptions : class :=
  Class [] "GeoObjectOptions" (Some "DrawableOptions") []
    [ fld "drawables"
        (TObj [fld "cam"
                 (TUnion [TRef "Drawable2D"; TArray (TRef "Drawable2D")])]);
      fld_opt "renderingOrder" tnumber;
      fld_opt "onEnterFieldOfVision" thunk;
      fld_opt "onExitFieldOfVision" thunk ].

(* lines 529-538 *)
Definition Label : class :=
  Class [] "Label" (Some "Drawable2D") []
    [ fld "height" tnumber;
      fld "style"
        (TObj [fld "backgroundColor" tstring; fld "textColor" tstring;
               fld "fontStyle" tnumber]);
      fld "text" tstring;
      ctor [arg "text" tstring; arg "height" tnumber;
            arg_opt "options" (TRef "LabelOptions")] ].

(* lines 540-549 *)
Definition Model : class :=
  Class [] "Model" (Some "Drawable") []
    [ fld "uri" tstring;
      ctor [arg "uri" tstring; arg "options" (TRef "DrawableOptions")];
      meth "isInitialized" [] tboolean;
      meth "isLoaded" [] tboolean;
      fld_opt "onError" thunk;
      fld_opt "onInitialized" thunk;
      fld_opt "onLoaded" thunk ].

(* lines 551-558 *)
Definition ModelAnimation : class :=
  Class [] "ModelAnimation" (Some "Animation") []
    [ ctor [arg "model" (TRef "Model");
            arg "animationId" tstring;
            arg_opt "options"
              (TObj [fld_opt "onStart" thunk; fld_opt "onFinish" thunk]);
            arg_opt "duration" tnumber] ].

(* lines 560-563 *)
Definition Positionable : class :=
  Class [] "Positionable" (Some "ARObject") []
    [ fld "name" tstring;
      ctor [arg "name" tstring;
            arg_opt "options" (TRef "PositionableOptions")] ].

(* lines 565-571 *)
Definition PositionableOptions : class :=
  Class [] "PositionableOptions" (Some "DrawableOptions") []
    [ fld "drawables" (TObj [fld "cam" (TArray (TRef "Drawable"))]);
      fld_opt "onEnterFieldOfVision" thunk;
      fld_opt "onExitFieldOfVision" thunk ].

(* lines 573-579 *)
Definition LabelOptions : class :=
  Class [] "LabelOptions" (Some "Drawable2DOptions") []
    [ fld "style"
        (TObj [fld "backgroundColor" tstring; fld "textColor" tstring;
               fld "fontStyle" tnumber]) ].

(* lines 581-594 *)
Definition PropertyAnimation : class :=
  Class [] "PropertyAnimation" (Some "Animation") []
    [ ctor [arg "target" (TRef "ARchitectObject");
            arg "property" tstring;
            arg "start" tnumber;
            arg "end" tnumber;
            arg "duration" tnumber;
            arg_opt "easingCurve" (TRef "EasingCurve");
            arg_opt "options"
              (TObj [fld_opt "onStart" thunk; fld_opt "onFinish" thunk])] ].

(* lines 596-608 *)
Definition RelativeLocation : class :=
  Class [] "RelativeLocation" (Some "Location") []
    [ fld "altitudeDelta" tnumber;
      fld "easting" tnumber;
      fld "northing" tnumber;
      fld "location" (TRef "Location");
      ctor [arg "location" (TRef "Location");
            arg "northing" tnumber;
            arg "easting" tnumber;
            arg_opt "altitudeDelta" tnumber] ].

(* line 610 *)
Definition callback : decl :=
  DType "callback" (TFun [arg_rest "arg" (TArray tany)] tvoid).

(* lines 612-625 *)
Definition Sound : class :=
  Class [] "Sound" (Some "ARchitectObject") []
    [ fld "state" tnumber;
      ctor [arg "uri" tstring;
            arg_opt "options"
              (TObj [fld_opt "onLoaded" (TRef "callback");
                     fld_opt "onError" (TRef "callback");
                     fld_opt "onFinishedPlaying" (TRef "callback")])];
      meth_untyped "load" [];
      meth_untyped "pause" [];
      meth_untyped "play" [arg "loopTimes" tnumber];
      meth_untyped "resume" [];
      meth_untyped "stop" [];
      fld_opt "onLoaded" (TRef "callback");
      fld_opt "onError" (TRef "callback");
      fld_opt "onFinishedPlaying" (TRef "callback") ].

(* lines 627-634 *)
Definition Style : class :=
  Class [] "Style" None []
    [ fld "backgroundColor" tstring;
      fld "fillColor" tstring;
      fld "fontStyle" tstring;
      fld "outlineColor" tstring;
      fld "outlineSize" tnumber;
      fld "textColor" tstring ].

(* lines 636-652 *)
Definition VideoDrawable : class :=
  Class [] "VideoDrawable" (Some "Drawable2D") []
    [ fld "height" tnumber;
      ctor [arg "uri" tstring; arg "height" tnumber;
            arg_opt "options" (TRef "VideoDrawableOptions")];
      meth "getUri" [] tstring;
      meth "isTransparent" [] tboolean;
      meth_untyped "pause" [];
      meth_untyped "play" [arg "loopTimes" tnumber];
      meth_untyped "resume" [];
      meth_untyped "stop" [];
      fld_opt "onPlaybackStarted" (TRef "callback");
      fld_opt "onFinishedPlaying" (TRef "callback");
      fld_opt "onFinish" (TRef "callback");
      fld_opt "onLoaded" (TRef "callback") ].

(* lines 654-667 *)
Definition radar : class :=
  Class [] "radar" None []
    [ fld "background" (TRef "ImageResource");
      fld "centerX" tnumber;
      fld "centerY" tnumber;
      fld "container" (TRef "Element");
      fld "enabled" tboolean;
      fld "northIndicator"
        (TObj [fld "image" (TRef "ImageResource"); fld "radius" tnumber]);
      fld "radius" tnumber;
      meth_untyped "notifyUpdateRadarPosition" [] ].

(* lines 669-675 *)
Definition VideoDrawableOptions : class :=
  Class [] "VideoDrawableOptions" (Some "Drawable2DOptions") []
    [ fld_opt "isTransparent" tboolean;
      fld_opt "onPlaybackStarted" (TRef "callback");
      fld_opt "onFinishedPlaying" (TRef "callback");
      fld_opt "onFinish" (TRef "callback");
      fld_opt "onLoaded" (TRef "callback") ].

(* lines 677-683 *)
Definition Vector3 : class :=
  Class
    ["Please Don't use, does not actually exist in the Wikitude Architect, its just an easier way to describe it..."]
    "Vector3" None []
    [ fld "x" tnumber;
      fld "y" tnumber;
      fld "z" tnumber;
      fld_opt "global" (TRef "Vector3") ].

(* lines 685-699 *)
Definition _EVENT_HANDLERS : class :=
  Class [] "_EVENT_HANDLERS" None []
    [ fld_opt "onClick" click_cb;
      fld_opt "onDragBegan" drag_cb;
      fld_opt "onDragChanged" drag_cb;
      fld_opt "onDragEnded" drag_cb;
      fld_opt "onPanBegan" pan_cb;
      fld_opt "onPanChanged" pan_cb;
      fld_opt "onPanEnded" pan_cb;
      fld_opt "onRotationBegan" angle_cb;
      fld_opt "onRotationChanged" angle_cb;
      fld_opt "onRotationEnded" angle_cb;
      fld_opt "onScaleBegan" scale_cb;
      fld_opt "onScaleChanged" scale_cb;
      fld_opt "onscaleEnded" scale_cb ].

(** The module, line 1 to line 700: its declarations in source order. *)
Definition decls : list decl :=
  [ RecognizedCallback; InterruptionCallback; ErrorCallback; CONST;
    DClass ARchitectObject; DClass ActionArea; DClass ActionRange;
    DClass Drawable; DClass Drawable2D; DClass ImageDrawable;
    DClass AnimatedImageDrawable; DClass ARObject; DClass ARObjectDrawables;
    DClass Animation; DClass AnimationGroup; DClass ImageResource;
    DClass BoundingRectangle; DClass Location; DClass GeoLocation;
    DClass Circle; context; hardware; DClass HtmlDrawable; DClass GeoObject;
    DClass GeoObjectDrawables; DClass EasingCurve; logger; platform;
    DClass ImageTrackable; DClass ImageTracker; DClass ImageTrackerOptions;
    DClass TargetCollectionResource; DClass CloudRecognitionService;
    DClass ImageTrackableOptions; DClass InstantTrackable;
    DClass InstantTrackableOptions; DClass InstantTracker;
    DClass EASING_CURVE_TYPE; DClass DrawableOptions; DClass Drawable2DOptions;
    DClass GeoObjectOptions; DClass Label; DClass Model; DClass ModelAnimation;
    DClass Positionable; DClass PositionableOptions; DClass LabelOptions;
    DClass PropertyAnimation; DClass RelativeLocation; callback; DClass Sound;
    DClass Style; DClass VideoDrawable; DClass radar;
    DClass VideoDrawableOptions; DClass Vector3; DClass _EVENT_HANDLERS ].

Definition module_AR : module := Module_ "AR" decls.

End AR.

(** ** What the description of the file says, as properties of a module *)

Module Spec.
Import TS.

(** No method, constructor, function or constant of the declaration carries
    code, and the declaration is a class, a constant or a type alias. *)
Definition signature_only (d : decl) : bool :=
  match kind_of d with KClass | KConst | KType => true | _ => false end
  && match decl_code d with [] => true | _ :: _ => false end
  && forallb (fun m => match member_body m with None => true | Some _ => false end)
       (decl_members d).





(** Every class other than [base] has [base] above it. *)
Definition BaseOfAll (ds : list decl) (base : string) : Prop :=
  forall c, In c (classes ds) -> c_name c <> base ->
            Descends ds (c_name c) base.

(** The classes of the file with no [ARchitectObject] above them: option
    bags, drawable collections and plain value shapes. *)
Definition helper_classes : list string :=
  [ "ARObjectDrawables"; "BoundingRectangle"; "GeoObjectDrawables";
    "ImageTrackerOptions"; "ImageTrackableOptions"; "InstantTrackableOptions";
    "EASING_CURVE_TYPE"; "DrawableOptions"; "Drawable2DOptions";
    "GeoObjectOptions"; "PositionableOptions"; "LabelOptions"; "Style";
    "radar"; "VideoDrawableOptions"; "Vector3"; "_EVENT_HANDLERS" ].

Definition base_check (ds : list decl) (c : class) : bool :=
  match chain ds (S (List.length ds)) (c_name c) with
  | Some l =>
      String.eqb (c_name c) "ARchitectObject"
      || Bool.eqb (mem "ARchitectObject" l) (negb (mem (c_name c) helper_classes))
  | None => false
  end.

(** A doc comment that promises [null] or [undefined] as the result. *)
Definition documents_absent_result (m : member) : bool :=
  doc_mentions "null will be returned" (member_doc m)
  || doc_mentions "undefined will be returned" (member_doc m).





(** Classes and constants: the components the description counts. *)
Definition components (ds : list decl) : nat :=
  List.length (classes ds) + List.length (consts ds).

(** The five informal clusters of the description. *)
Definition scene_graph : list string :=
  [ "ARchitectObject"; "Drawable"; "Drawable2D"; "ARObject"; "GeoObject";
    "Positionable" ].
Definition geospatial : list string :=
  [ "Location"; "GeoLocation"; "RelativeLocation"; "ActionArea";
    "ActionRange" ].
Definition media : list string :=
  [ "ImageResource"; "Model"; "Sound"; "VideoDrawable"; "HtmlDrawable" ].
Definition recognition : list string :=
  [ "ImageTracker"; "ImageTrackable"; "CloudRecognitionService";
    "InstantTracker"; "InstantTrackable"; "TargetCollectionResource" ].
Definition animation : list string :=
  [ "Animation"; "AnimationGroup"; "PropertyAnimation"; "ModelAnimation";
    "EasingCurve" ].
Definition clusters : list string :=
  scene_graph ++ geospatial ++ media ++ recognition ++ animation.

(** The declarations that carry scale-gesture handlers, and the names the
    handlers have there. *)
Definition scale_carriers : list string :=
  [ "Drawable"; "ARObject"; "context"; "_EVENT_HANDLERS" ].
Definition scale_names : list string :=
  [ "onScaleBegan"; "onScaleChanged"; "onscaleEnded" ].

Definition scale_check (d : decl) : bool :=
  Bool.eqb (carries_scale d) (mem (decl_name d) scale_carriers)
  && (negb (carries_scale d)
      || forallb2_eq (filter scale_handler (own_names d)) scale_names)
  && negb (mem "onScaleEnded" (all_names d)).

End Spec.

(** ** Further readings of a module: bodies, parameter lists, inheritance *)

Module Ext.
Import TS.

(** *** Equality of type expressions *)

Section ListEqb.
Variable A : Type.
Variable eqb : A -> A -> bool.

Fixpoint list_eqb (l l' : list A) : bool :=
  match l, l' with
  | [], [] => true
  | x :: r, y :: r' => eqb x y && list_eqb r r'
  | _, _ => false
  end.

Definition option_eqb (o o' : option A) : bool :=
  match o, o' with
  | Some x, Some y => eqb x y
  | None, None => true
  | _, _ => false
  end.

End ListEqb.

Arguments list_eqb {A} eqb l l'.
Arguments option_eqb {A} eqb o o'.

Definition prim_eqb (p q : prim) : bool :=
  match p, q with
  | Pnumber, Pnumber | Pstring, Pstring | Pboolean, Pboolean | Pvoid, Pvoid
  | Pany, Pany | Pnull, Pnull | Pundefined, Pundefined => true
  | _, _ => false
  end.

Definition modifier_eqb (a b : modifier) : bool :=
  match a, b with
  | Public, Public | Readonly, Readonly => true
  | _, _ => false
  end.

Fixpoint ty_eqb (t t' : ty) : bool :=
  match t, t' with
  | TPrim p, TPrim q => prim_eqb p q
  | TRef n, TRef n' => String.eqb n n'
  | TLit s, TLit s' => String.eqb s s'
  | TArray e, TArray e' => ty_eqb e e'
  | TUnion ts, TUnion ts' => list_eqb ty_eqb ts ts'
  | TFun ps r, TFun ps' r' => list_eqb param_eqb ps ps' && ty_eqb r r'
  | TObj ms, TObj ms' => list_eqb member_eqb ms ms'
  | _, _ => false
  end
with param_eqb (p p' : param) : bool :=
  match p, p' with
  | Param b n o t, Param b' n' o' t' =>
      Bool.eqb b b' && String.eqb n n' && Bool.eqb o o'
      && option_eqb ty_eqb t t'
  end
with member_eqb (m m' : member) : bool :=
  match m, m' with
  | Field d mods n o t, Field d' mods' n' o' t' =>
      list_eqb String.eqb d d' && list_eqb modifier_eqb mods mods'
      && String.eqb n n' && Bool.eqb o o' && ty_eqb t t'
  | Method d n ps r b, Method d' n' ps' r' b' =>
      list_eqb String.eqb d d' && String.eqb n n'
      && list_eqb param_eqb ps ps' && option_eqb ty_eqb r r'
      && option_eqb (list_eqb String.eqb) b b'
  | Ctor d ps b, Ctor d' ps' b' =>
      list_eqb String.eqb d d' && list_eqb param_eqb ps ps'
      && option_eqb (list_eqb String.eqb) b b'
  | _, _ => false
  end.

(** A list of names equal to itself with repeats removed has none. *)
Definition nodupb (l : list string) : bool :=
  list_eqb String.eqb (nodup string_dec l) l.

(** *** Bodies and parameter lists *)

(** Every member list written in a type expression: the object type
    literals, at any depth. *)
Fixpoint ty_bodies (t : ty) : list (list member) :=
  match t with
  | TPrim _ | TRef _ | TLit _ => []
  | TArray e => ty_bodies e
  | TUnion ts => flat_map ty_bodies ts
  | TFun ps r => flat_map param_bodies ps ++ ty_bodies r
  | TObj ms => ms :: flat_map member_bodies ms
  end
with param_bodies (p : param) : list (list member) :=
  match p with
  | Param _ _ _ (Some t) => ty_bodies t
  | Param _ _ _ None => []
  end
with member_bodies (m : member) : list (list member) :=
  match m with
  | Field _ _ _ _ t => ty_bodies t
  | Method _ _ ps r _ =>
      flat_map param_bodies ps
      ++ match r with Some t => ty_bodies t | None => [] end
  | Ctor _ ps _ => flat_map param_bodies ps
  end.

(** The bodies of a declaration: the class or interface body itself and
    every object type literal inside the declaration. *)
Definition decl_bodies (d : decl) : list (list member) :=
  match d with
  | DType _ t | DConst _ t _ => ty_bodies t
  | DClass c => c_members c :: flat_map member_bodies (c_members c)
  | DFunction _ ps r _ =>
      flat_map param_bodies ps
      ++ match r with Some t => ty_bodies t | None => [] end
  | DInterface _ _ ms => ms :: flat_map member_bodies ms
  end.

Definition body_names (ms : list member) : list string :=
  flat_map (fun m => match member_name m with Some n => [n] | None => [] end)
           ms.

(** Every parameter list written in a type expression, a parameter or a
    member: of function types, methods and constructors, at any depth. *)
Fixpoint ty_param_lists (t : ty) : list (list param) :=
  match t with
  | TPrim _ | TRef _ | TLit _ => []
  | TArray e => ty_param_lists e
  | TUnion ts => flat_map ty_param_lists ts
  | TFun ps r => ps :: flat_map param_param_lists ps ++ ty_param_lists r
  | TObj ms => flat_map member_param_lists ms
  end
with param_param_lists (p : param) : list (list param) :=
  match p with
  | Param _ _ _ (Some t) => ty_param_lists t
  | Param _ _ _ None => []
  end
with member_param_lists (m : member) : list (list param) :=
  match m with
  | Field _ _ _ _ t => ty_param_lists t
  | Method _ _ ps r _ =>
      ps :: flat_map param_param_lists ps
      ++ match r with Some t => ty_param_lists t | None => [] end
  | Ctor _ ps _ => ps :: flat_map param_param_lists ps
  end.

Definition decl_param_lists (d : decl) : list (list param) :=
  match d with
  | DType _ t | DConst _ t _ => ty_param_lists t
  | DClass c => flat_map member_param_lists (c_members c)
  | DFunction _ ps r _ =>
      ps :: flat_map param_param_lists ps
      ++ match r with Some t => ty_param_lists t | None => [] end
  | DInterface _ _ ms => flat_map member_param_lists ms
  end.

Definition param_rest (p : param) : bool :=
  match p with Param r _ _ _ => r end.

(** After an optional parameter come only optional or rest parameters,
    and nothing comes after a rest parameter. *)
Fixpoint params_ordered (ps : list param) : bool :=
  match ps with
  | [] => true
  | p :: r =>
      (if param_rest p then match r with [] => true | _ :: _ => false end
       else if param_optional p
            then forallb (fun q => param_optional q || param_rest q) r
            else true)
      && params_ordered r
  end.

(** *** Inherited members *)

(** The superclasses above the class named [n], nearest first. *)
Definition ancestors (ds : list decl) (n : string) : list string :=
  match chain ds (S (List.length ds)) n with
  | Some l => l
  | None => []
  end.

(** The members the class named [n] declares in its own body. *)
Definition own (ds : list decl) (n : string) : list member :=
  match find_class ds n with
  | Some c => c_members c
  | None => []
  end.

Definition inherited (ds : list decl) (n : string) : list member :=
  flat_map (own ds) (ancestors ds n).

(** The members of the class named [n]: its own, then those of its
    superclasses, nearest first. *)
Definition members_of (ds : list decl) (n : string) : list member :=
  own ds n ++ inherited ds n.

(** [Has ds n m]: the class named [n] declares [m] or inherits it. *)
Inductive Has (ds : list decl) : string -> member -> Prop :=
| Has_own (c : class) (m : member) :
    In c (classes ds) -> In m (c_members c) -> Has ds (c_name c) m
| Has_inherited (n p : string) (m : member) :
    Extends ds n p -> Has ds p m -> Has ds n m.

(** A field type that is the name of a class below the class named [k'],
    or that class itself. *)
Definition narrows (ds : list decl) (t t' : ty) : bool :=
  match t, t' with
  | TRef k, TRef k' => String.eqb k k' || descendsb ds k k'
  | _, _ => false
  end.

(** The object type literal a constructor takes as [options], if it takes
    one; a constructor may also name a class for its options, or take
    none. *)
Definition inline_options (m : member) : list member :=
  match m with
  | Ctor _ ps _ =>
      flat_map (fun p => match p with
                         | Param _ "options" _ (Some (TObj os)) => os
                         | _ => []
                         end) ps
  | _ => []
  end.

(** *** Names *)

Definition is_upper (c : ascii) : bool :=
  ((65 <=? nat_of_ascii c) && (nat_of_ascii c <=? 90))%nat.

Definition lower (c : ascii) : ascii :=
  if is_upper c then ascii_of_nat (nat_of_ascii c + 32)%nat else c.

(** UPPER_SNAKE to camelCase: an underscore is dropped and keeps the next
    letter in upper case; the other letters are lowered. *)
Fixpoint camel_from (keep : bool) (s : string) : string :=
  match s with
  | EmptyString => EmptyString
  | String c r =>
      if Ascii.eqb c "_"%char then camel_from true r
      else String (if keep then c else lower c) (camel_from false r)
  end.

Definition camel (s : string) : string := camel_from false s.


(** The literal a member is typed with, when it is typed with one. *)
Definition literal_of (m : member) : option string :=
  match m with
  | Field _ _ _ _ (TLit v) => Some v
  | _ => None
  end.

Definition body_literals (ms : list member) : list string :=
  flat_map (fun m => match literal_of m with Some v => [v] | None => [] end)
           ms.

(** *** What holds of every declaration, as tests *)

(** The names the file uses without declaring them. *)
Definition externals : list string := [ "Error"; "Geolocation"; "Element" ].

Definition names_check (d : decl) : bool :=
  forallb (fun b => nodupb (body_names b)) (decl_bodies d).

Definition refs_check (ds : list decl) (d : decl) : bool :=
  forallb (fun n => mem n (declared ds) || mem n externals) (decl_refs d).

Definition hierarchy_check (ds : list decl) (c : class) : bool :=
  match chain ds (S (List.length ds)) (c_name c) with
  | Some l =>
      negb (mem (c_name c) l) && (List.length l <=? 4)%nat
      && forallb (fun a => mem a (class_names ds)) l
  | None => false
  end.

(** The class named [n] has a field with the name and the type of [m]. *)
Definition conforms (ds : list decl) (n : string) (m : member) : bool :=
  match member_name m, field_ty m with
  | Some k, Some t =>
      existsb (fun m' => named k m' && option_eqb ty_eqb (field_ty m') (Some t))
              (members_of ds n)
  | _, _ => false
  end.

Definition implements_check (ds : list decl) (c : class) : bool :=
  forallb (fun i => mem i (class_names ds)
                    && forallb (conforms ds (c_name c)) (members_of ds i))
          (c_implements c).

(** A member of [c] with the name of an inherited member is
    [GeoObject.drawables], and its type narrows the inherited one. *)
Definition override_check (ds : list decl) (c : class) : bool :=
  forallb (fun m =>
             match member_name m with
             | Some k =>
                 forallb (fun m' =>
                            negb (named k m')
                            || (String.eqb (c_name c) "GeoObject"
                                && String.eqb k "drawables"
                                && match field_ty m, field_ty m' with
                                   | Some t, Some t' => narrows ds t t'
                                   | _, _ => false
                                   end))
                         (inherited ds (c_name c))
             | None => true
             end)
          (c_members c).

Definition params_check (d : decl) : bool :=
  forallb params_ordered (decl_param_lists d).

(** [Class.member], to name a place in the file. *)
Definition site (c k : string) : string := c ++ "." ++ k.



(** The constructor options whose type is not the type of the member they
    set. *)
Definition option_type_slips : list string :=
  [ "ImageResource.onError"; "InstantTracker.deviceHeight" ].

Definition options_check (ds : list decl) (c : class) : bool :=
  forallb (fun m =>
             forallb (fun o =>
                        match member_name o, field_ty o with
                        | Some k, Some t =>
                            match find (named k) (members_of ds (c_name c)) with
                            | Some m' =>
                                match field_ty m' with
                                | Some t' =>
                                    Bool.eqb (ty_eqb t' t)
                                      (negb (mem (site (c_name c) k)
                                                 option_type_slips))
                                | None => false
                                end
                            | None => false
                            end
                        | _, _ => false
                        end)
                     (inline_options m))
          (c_members c).

Definition destroy_member (m : member) : bool :=
  named "destroy" m || named "destroyed" m.

Definition destroy_check (ds : list decl) (c : class) : bool :=
  list_eqb member_eqb
    (filter destroy_member (members_of ds (c_name c)))
    (if mem (c_name c) Spec.helper_classes then []
     else c_members AR.ARchitectObject).

Definition drag_names : list string :=
  [ "onDragBegan"; "onDragChanged"; "onDragEnded" ].

Definition gesture_check (m : member) : bool :=
  existsb (member_eqb m) (c_members AR.Drawable)
  && existsb (member_eqb m) (c_members AR.ARObject)
  && match member_name m, field_ty m with
     | Some k, Some t =>
         if String.eqb k "onClick" then negb (mem k (own_names AR.context))
         else match find (named k) (own_members AR.context) with
              | Some m' =>
                  member_optional m'
                  && match field_ty m' with
                     | Some t' =>
                         Bool.eqb (ty_eqb t' t) (negb (mem k drag_names))
                         && (negb (mem k drag_names) || ty_eqb t' AR.pan_cb)
                     | None => false
                     end
              | None => false
              end
     | _, _ => false
     end.

Definition literal_check (d : decl) : bool :=
  forallb (fun b =>
             nodupb (body_literals b)
             && forallb (fun m =>
                           match literal_of m with
                           | Some v =>
                               match member_name m with
                               | Some k => String.eqb v (camel k)
                               | None => false
                               end
                           | None => true
                           end) b)
          (decl_bodies d).

(** The result types of the function types written in a type expression, a
    parameter or a member, at any depth. *)
Fixpoint ty_results (t : ty) : list ty :=
  match t with
  | TPrim _ | TRef _ | TLit _ => []
  | TArray e => ty_results e
  | TUnion ts => flat_map ty_results ts
  | TFun ps r => r :: flat_map param_results ps ++ ty_results r
  | TObj ms => flat_map member_results ms
  end
with param_results (p : param) : list ty :=
  match p with
  | Param _ _ _ (Some t) => ty_results t
  | Param _ _ _ None => []
  end
with member_results (m : member) : list ty :=
  match m with
  | Field _ _ _ _ t => ty_results t
  | Method _ _ ps r _ =>
      flat_map param_results ps
      ++ match r with Some t => ty_results t | None => [] end
  | Ctor _ ps _ => flat_map param_results ps
  end.

(** The result types of the callback types of a declaration. *)
Definition decl_results (d : decl) : list ty :=
  match d with
  | DType _ t | DConst _ t _ => ty_results t
  | DClass c => flat_map member_results (c_members c)
  | DFunction _ ps r _ =>
      flat_map param_results ps
      ++ match r with Some t => ty_results t | None => [] end
  | DInterface _ _ ms => flat_map member_results ms
  end.

Definition results_check (d : decl) : bool :=
  forallb (fun r => ty_eqb r tvoid) (decl_results d)
  && match d with
     | DType _ (TFun _ _) => true
     | DType _ _ => false
     | _ => true
     end.

(** *** Documentation *)










End Ext.

(** ** General facts about declaration trees *)

Module Facts.
Import TS.

Lemma mem_In (n : string) (l : list string) : mem n l = true <-> In n l.
Proof.
  unfold mem. rewrite existsb_exists. split.
  - intros [x [Hin Heq]]. apply String.eqb_eq in Heq. now subst x.
  - intros Hin. exists n. split; [assumption | apply String.eqb_refl].
Qed.

Lemma mem_not_In (n : string) (l : list string) : mem n l = false <-> ~ In n l.
Proof.
  rewrite <- mem_In. destruct (mem n l); split; intro H;
    try reflexivity; try discriminate; try (intro; discriminate).
  exfalso. now apply H.
Qed.


(** A class is among the classes of a module exactly when the module
    declares it. *)
Lemma in_classes (ds : list decl) (c : class) :
  In c (classes ds) <-> In (DClass c) ds.
Proof.
  unfold classes. rewrite in_flat_map. split.
  - intros [d [Hd Hc]]. destruct d; simpl in Hc; try contradiction.
    destruct Hc as [<- | []]. assumption.
  - intros H. exists (DClass c). split; [assumption | now left].
Qed.


(** *** Superclass chains *)

Lemma find_unique (cs : list class) :
  NoDup (map c_name cs) ->
  forall c, In c cs ->
  find (fun c' => String.eqb (c_name c') (c_name c)) cs = Some c.
Proof.
  induction cs as [| c0 cs IH]; intros Hnd c Hin; [destruct Hin |].
  simpl in Hnd. inversion Hnd as [| ? ? Hfresh Hrest]; subst.
  simpl. destruct Hin as [-> | Hin].
  - now rewrite String.eqb_refl.
  - destruct (String.eqb (c_name c0) (c_name c)) eqn:E.
    + apply String.eqb_eq in E. exfalso. apply Hfresh.
      rewrite E. now apply in_map.
    + now apply IH.
Qed.

Section Hierarchy.

Variable ds : list decl.
Hypothesis unique : NoDup (class_names ds).

Lemma parent_Extends (n p : string) : parent ds n = Some p -> Extends ds n p.
Proof.
  unfold parent, find_class. destruct (find _ (classes ds)) as [c |] eqn:F;
    [| discriminate].
  apply find_some in F. destruct F as [Hin Hname].
  apply String.eqb_eq in Hname. subst n. intros Hp.
  now constructor.
Qed.

Lemma Extends_parent (n p : string) : Extends ds n p -> parent ds n = Some p.
Proof.
  intros [c q Hin Hq]. unfold parent, find_class.
  now rewrite (find_unique (classes ds) unique c Hin).
Qed.

(** A chain to an ancestor starts with the parent. *)
Lemma Descends_step (n a : string) :
  Descends ds n a ->
  exists p, parent ds n = Some p /\ (p = a \/ Descends ds p a).
Proof.
  intros H. apply clos_trans_t1n in H.
  destruct H as [y Hxy | y z Hxy Hyz].
  - exists y. split; [now apply Extends_parent | now left].
  - exists y. split; [now apply Extends_parent |].
    right. now apply clos_t1n_trans.
Qed.

(** When [chain] ends within its fuel, it lists the ancestors, all of
    them and nothing else. *)
Lemma chain_spec (fuel : nat) :
  forall n l, chain ds fuel n = Some l ->
  forall a, Descends ds n a <-> In a l.
Proof.
  induction fuel as [| f IH]; intros n l Hc a; simpl in Hc; [discriminate |].
  destruct (parent ds n) as [p |] eqn:Hp.
  - destruct (chain ds f p) as [l' |] eqn:Hl; simpl in Hc; [| discriminate].
    injection Hc as <-. specialize (IH p l' Hl a). split.
    + intros H. apply Descends_step in H.
      destruct H as [q [Hq [-> | Hd]]]; rewrite Hp in Hq;
        injection Hq as ->; [now left | right; now apply IH].
    + intros [-> | Hin].
      * apply t_step. now apply parent_Extends.
      * apply t_trans with p; [apply t_step; now apply parent_Extends |].
        now apply IH.
  - injection Hc as <-. split; [| intros []].
    intros H. apply Descends_step in H. destruct H as [q [Hq _]].
    rewrite Hp in Hq. discriminate.
Qed.

Lemma descendsb_true (n a : string) :
  descendsb ds n a = true -> Descends ds n a.
Proof.
  unfold descendsb. destruct (chain ds _ n) as [l |] eqn:Hc; [| discriminate].
  intros H. apply mem_In in H. now apply (chain_spec _ n l Hc).
Qed.

Lemma descendsb_false (n a : string) :
  chain ds (S (List.length ds)) n <> None ->
  descendsb ds n a = false -> ~ Descends ds n a.
Proof.
  unfold descendsb. destruct (chain ds _ n) as [l |] eqn:Hc;
    [| intros H; now contradiction H].
  intros _ H Hd. apply mem_not_In in H. apply H.
  now apply (chain_spec _ n l Hc).
Qed.

End Hierarchy.

End Facts.

(** ** The module "AR" *)

Import TS.

(** Membership in a list written out, by walking it. *)
Ltac walk_list := repeat (first [left; reflexivity | right]).

Ltac split_andb H :=
  repeat match type of H with
         | (_ && _)%bool = true =>
             let H' := fresh H in apply andb_true_iff in H; destruct H as [H H']
         end.

Lemma class_names_unique : NoDup (class_names AR.decls).
Proof.
  assert (E : nodup string_dec (class_names AR.decls) = class_names AR.decls)
    by (vm_compute; reflexivity).
  rewrite <- E. apply NoDup_nodup.
Qed.

Lemma find_class_declared (ds : list decl) (n : string) (c : class) :
  find_class ds n = Some c -> In (DClass c) ds /\ c_name c = n.
Proof.
  unfold find_class. intros H. apply find_some in H. destruct H as [Hin Hn].
  split; [now apply Facts.in_classes | now apply String.eqb_eq].
Qed.

Lemma named_spec (n : string) (m : member) :
  named n m = true <-> member_name m = Some n.
Proof.
  unfold named. destruct (member_name m) as [n' |].
  - rewrite String.eqb_eq. split; [intros -> | intros [= ->]]; reflexivity.
  - split; discriminate.
Qed.

Lemma signature_only_all : forallb Spec.signature_only AR.decls = true.
Proof. vm_compute. reflexivity. Qed.

(** C1.  The file holds no executable logic: every top-level declaration of
    module "AR" is a class, a constant or a type alias; none carries code
    (no function body, no initialiser), and no method or constructor of
    any declaration, at any depth, has a body. *)
Theorem declarations_only (d : decl) :
  In d (m_decls AR.module_AR) ->
  (kind_of d = KClass \/ kind_of d = KConst \/ kind_of d = KType)
  /\ decl_code d = []
  /\ (forall m, In m (decl_members d) -> member_body m = None).
Proof.
  intros Hd. change (m_decls AR.module_AR) with AR.decls in Hd.
  pose proof signature_only_all as H.
  rewrite forallb_forall in H. specialize (H d Hd).
  unfold Spec.signature_only in H. split_andb H.
  repeat split.
  - destruct (kind_of d); auto; discriminate.
  - destruct (decl_code d); [reflexivity | discriminate].
  - intros m Hm. rewrite forallb_forall in H0. specialize (H0 m Hm).
    destruct (member_body m); [discriminate | reflexivity].
Qed.

Lemma declarations_only_witness :
  (kind_of AR.context = KClass \/ kind_of AR.context = KConst
   \/ kind_of AR.context = KType)
  /\ decl_code AR.context = []
  /\ (forall m, In m (decl_members AR.context) -> member_body m = None).
Proof.
  apply (declarations_only AR.context).
  change (m_decls AR.module_AR) with AR.decls. unfold AR.decls. walk_list.
Defined.

(** C4.  ARchitectObject carries a destroyed flag and a destroy operation
    and nothing else: its body has exactly two members, the field
    [destroyed: boolean] and the method [destroy(): void], which takes no
    argument. *)
Theorem ARchitectObject_members :
  find_class AR.decls "ARchitectObject" = Some AR.ARchitectObject
  /\ List.length (c_members AR.ARchitectObject) = 2
  /\ find_member "destroyed" (c_members AR.ARchitectObject)
     = Some (Field [] [] "destroyed" false (TPrim Pboolean))
  /\ find_member "destroy" (c_members AR.ARchitectObject)
     = Some (Method [] "destroy" [] (Some (TPrim Pvoid)) None)
  /\ (forall m, In m (c_members AR.ARchitectObject) ->
        member_name m = Some "destroyed" \/ member_name m = Some "destroy").
Proof.
  split; [reflexivity |]. repeat split.
  intros m [<- | [<- | []]]; [left | right]; reflexivity.
Qed.

(** C6.  The file declares roughly 60 classes and constants: 48 classes
    and 5 constants, 53 together, which is within ten of 60; with the four
    type aliases the module has 57 top-level declarations. *)
Theorem components_count :
  List.length (classes AR.decls) = 48
  /\ List.length (consts AR.decls) = 5
  /\ Spec.components AR.decls = 53
  /\ List.length (type_aliases AR.decls) = 4
  /\ List.length AR.decls = 57
  /\ 60 - 10 <= Spec.components AR.decls <= 60 + 10.
Proof.
  assert (Hc : List.length (classes AR.decls) = 48) by reflexivity.
  assert (Hk : List.length (consts AR.decls) = 5) by reflexivity.
  unfold Spec.components. rewrite Hc, Hk.
  repeat split; try reflexivity; lia.
Qed.

(** C7.  Every entity the five cluster lists name is declared as a class
    in module "AR". *)
Theorem clusters_declared (n : string) :
  In n Spec.clusters ->
  exists c, In (DClass c) (m_decls AR.module_AR) /\ c_name c = n.
Proof.
  intros Hn.
  assert (H : exists c, find_class AR.decls n = Some c).
  { unfold Spec.clusters, Spec.scene_graph, Spec.geospatial, Spec.media,
      Spec.recognition, Spec.animation in Hn. simpl in Hn.
    repeat (destruct Hn as [<- | Hn]; [eexists; reflexivity |]).
    destruct Hn. }
  destruct H as [c Hc]. exists c. now apply find_class_declared.
Qed.

Lemma clusters_declared_witness :
  exists c, In (DClass c) (m_decls AR.module_AR)
            /\ c_name c = "TargetCollectionResource".
Proof.
  apply (clusters_declared "TargetCollectionResource").
  unfold Spec.clusters, Spec.scene_graph, Spec.geospatial, Spec.media,
    Spec.recognition, Spec.animation. simpl. walk_list.
Defined.






Lemma base_check_all :
  forallb (Spec.base_check AR.decls) (classes AR.decls) = true.
Proof. vm_compute. reflexivity. Qed.

(** C3, as stated, fails: BoundingRectangle is a class of module "AR" with
    no [extends] clause, so ARchitectObject is not above every class. *)
Lemma not_base_of_all : ~ Spec.BaseOfAll AR.decls "ARchitectObject".
Proof.
  intros H.
  assert (D : Descends AR.decls (c_name AR.BoundingRectangle) "ARchitectObject").
  { apply H.
    - apply Facts.in_classes. unfold AR.decls. walk_list.
    - discriminate. }
  apply (Facts.chain_spec AR.decls class_names_unique 1 _ []) in D.
  - destruct D.
  - reflexivity.
Qed.

(** C3, amended.  ARchitectObject is the base of the engine's objects, not
    of every declared class: a class of module "AR" other than
    ARchitectObject extends it, directly or through a chain of declared
    superclasses, exactly when it is not one of the seventeen helper
    classes; ARchitectObject itself extends nothing, and every helper class
    is a class of the module. *)
Theorem ARchitectObject_descendants :
  (forall c, In c (classes AR.decls) -> c_name c <> "ARchitectObject" ->
     (Descends AR.decls (c_name c) "ARchitectObject"
      <-> ~ In (c_name c) Spec.helper_classes))
  /\ parent AR.decls "ARchitectObject" = None
  /\ (forall n, In n Spec.helper_classes -> In n (class_names AR.decls))
  /\ List.length Spec.helper_classes = 17.
Proof.
  split; [| split; [reflexivity | split; [| reflexivity]]].
  - intros c Hc Hne.
    pose proof base_check_all as H. rewrite forallb_forall in H.
    specialize (H c Hc). unfold Spec.base_check in H.
    destruct (chain AR.decls _ (c_name c)) as [l |] eqn:Hl; [| discriminate].
    rewrite (Facts.chain_spec AR.decls class_names_unique _ _ l Hl).
    apply orb_true_iff in H. destruct H as [H | H].
    + apply String.eqb_eq in H. contradiction.
    + apply Bool.eqb_prop in H.
      rewrite <- Facts.mem_In, <- Facts.mem_not_In, H.
      apply negb_true_iff.
  - intros n Hn. apply Facts.mem_In.
    unfold Spec.helper_classes in Hn. simpl in Hn.
    repeat (destruct Hn as [<- | Hn]; [reflexivity |]). destruct Hn.
Qed.

Lemma ARchitectObject_descendants_witness :
  (Descends AR.decls "AnimatedImageDrawable" "ARchitectObject"
   <-> ~ In "AnimatedImageDrawable" Spec.helper_classes)
  /\ In "Vector3" (class_names AR.decls).
Proof.
  split.
  - apply (proj1 ARchitectObject_descendants AR.AnimatedImageDrawable).
    + apply Facts.in_classes. unfold AR.decls. walk_list.
    + discriminate.
  - apply (proj1 (proj2 (proj2 ARchitectObject_descendants)) "Vector3").
    unfold Spec.helper_classes. walk_list.
Defined.





(** C8.  Location.distanceToUser takes no argument and is declared with
    return type [number] alone, a type that names neither null nor
    undefined, while its own documentation says that undefined will be
    returned when the position of the user cannot be determined and tags
    the result [{number|undefined}]. *)
Theorem distanceToUser_signature :
  exists m,
    In (DClass AR.Location) AR.decls
    /\ find_member "distanceToUser" (c_members AR.Location) = Some m
    /\ member_params m = []
    /\ method_ret m = Some (TPrim Pnumber)
    /\ ty_absent (TPrim Pnumber) = false
    /\ Spec.documents_absent_result m = true
    /\ In "If the current position of the user cannot be determined, undefined will be returned."
          (member_doc m)
    /\ In "@returns {number|undefined}" (member_doc m).
Proof.
  eexists. split; [unfold AR.decls; walk_list |].
  split; [reflexivity |].
  repeat split; simpl; walk_list.
Qed.

Lemma scale_check_all : forallb Spec.scale_check AR.decls = true.
Proof. vm_compute. reflexivity. Qed.

Lemma forallb2_eq_spec (l1 l2 : list string) :
  forallb2_eq l1 l2 = true -> l1 = l2.
Proof.
  revert l2. induction l1 as [| x l1 IH]; intros [| y l2] H; simpl in H;
    try discriminate; [reflexivity |].
  apply andb_true_iff in H. destruct H as [Hxy Hr].
  apply String.eqb_eq in Hxy. subst y. f_equal. now apply IH.
Qed.

(** C9.  A declaration of module "AR" carries scale-gesture handlers
    exactly when it is Drawable, ARObject, context or _EVENT_HANDLERS; each
    of these names them onScaleBegan, onScaleChanged and onscaleEnded, in
    that order and no other; and no declaration gives the name
    onScaleEnded to any member or parameter, at any depth. *)
Theorem scale_handler_names (d : decl) :
  In d AR.decls ->
  (carries_scale d = true <-> In (decl_name d) Spec.scale_carriers)
  /\ (carries_scale d = true ->
      filter scale_handler (own_names d) = Spec.scale_names)
  /\ ~ In "onScaleEnded" (all_names d).
Proof.
  intros Hd. pose proof scale_check_all as H.
  rewrite forallb_forall in H. specialize (H d Hd).
  unfold Spec.scale_check in H. split_andb H.
  apply Bool.eqb_prop in H. split; [| split].
  - rewrite H. apply Facts.mem_In.
  - intros Hc. rewrite Hc in H1. simpl in H1. now apply forallb2_eq_spec.
  - apply Facts.mem_not_In. now apply negb_true_iff.
Qed.

Lemma scale_handler_names_witness :
  (carries_scale (DClass AR._EVENT_HANDLERS) = true
   <-> In "_EVENT_HANDLERS" Spec.scale_carriers)
  /\ (carries_scale (DClass AR._EVENT_HANDLERS) = true ->
      filter scale_handler (own_names (DClass AR._EVENT_HANDLERS))
      = Spec.scale_names)
  /\ ~ In "onScaleEnded" (all_names (DClass AR._EVENT_HANDLERS)).
Proof.
  apply (scale_handler_names (DClass AR._EVENT_HANDLERS)).
  unfold AR.decls. walk_list.
Defined.

(** C10.  ActionArea.isInArea has one parameter, [geoLocation], of type
    Geolocation.  Module "AR" declares no Geolocation; it declares the
    class GeoLocation, a different name; so the signature of isInArea names
    no type declared in the file. *)
Theorem isInArea_parameter :
  exists m,
    In (DClass AR.ActionArea) AR.decls
    /\ find_member "isInArea" (c_members AR.ActionArea) = Some m
    /\ member_params m = [Param false "geoLocation" false (Some (TRef "Geolocation"))]
    /\ method_ret m = Some (TPrim Pboolean)
    /\ ~ In "Geolocation" (declared AR.decls)
    /\ In (DClass AR.GeoLocation) AR.decls
    /\ c_name AR.GeoLocation = "GeoLocation"
    /\ "Geolocation" <> "GeoLocation"
    /\ (forall n, In n (member_refs m) -> ~ In n (declared AR.decls)).
Proof.
  eexists. split; [unfold AR.decls; walk_list |].
  split; [reflexivity |].
  split; [reflexivity |]. split; [reflexivity |].
  assert (Hno : ~ In "Geolocation" (declared AR.decls))
    by (apply Facts.mem_not_In; reflexivity).
  split; [exact Hno |].
  split; [unfold AR.decls; walk_list |].
  split; [reflexivity |]. split; [discriminate |].
  intros n [<- | []]. exact Hno.
Qed.

(** ** Facts about bodies, parameter lists and inherited members *)

Module ExtFacts.
Import Ext.

(** *** Induction over type expressions, parameters and members *)

Section TreeInduction.

Variable P : ty -> Prop.
Variable Q : param -> Prop.
Variable R : member -> Prop.

Hypothesis HPrim : forall p, P (TPrim p).
Hypothesis HRef : forall n, P (TRef n).
Hypothesis HLit : forall s, P (TLit s).
Hypothesis HArray : forall e, P e -> P (TArray e).
Hypothesis HUnion : forall ts, Forall P ts -> P (TUnion ts).
Hypothesis HFun : forall ps r, Forall Q ps -> P r -> P (TFun ps r).
Hypothesis HObj : forall ms, Forall R ms -> P (TObj ms).
Hypothesis HTyped : forall b n o t, P t -> Q (Param b n o (Some t)).
Hypothesis HUntyped : forall b n o, Q (Param b n o None).
Hypothesis HField : forall d mods n o t, P t -> R (Field d mods n o t).
Hypothesis HMethod : forall d n ps t b,
  Forall Q ps -> P t -> R (Method d n ps (Some t) b).
Hypothesis HMethodAny : forall d n ps b,
  Forall Q ps -> R (Method d n ps None b).
Hypothesis HCtor : forall d ps b, Forall Q ps -> R (Ctor d ps b).

Fixpoint ty_tree_ind (t : ty) : P t :=
  match t with
  | TPrim p => HPrim p
  | TRef n => HRef n
  | TLit s => HLit s
  | TArray e => HArray e (ty_tree_ind e)
  | TUnion ts =>
      HUnion ts
        ((fix all (l : list ty) : Forall P l :=
            match l with
            | [] => Forall_nil P
            | x :: r => Forall_cons x (ty_tree_ind x) (all r)
            end) ts)
  | TFun ps r =>
      HFun ps r
        ((fix all (l : list param) : Forall Q l :=
            match l with
            | [] => Forall_nil Q
            | x :: r => Forall_cons x (param_tree_ind x) (all r)
            end) ps)
        (ty_tree_ind r)
  | TObj ms =>
      HObj ms
        ((fix all (l : list member) : Forall R l :=
            match l with
            | [] => Forall_nil R
            | x :: r => Forall_cons x (member_tree_ind x) (all r)
            end) ms)
  end
with param_tree_ind (p : param) : Q p :=
  match p with
  | Param b n o (Some t) => HTyped b n o t (ty_tree_ind t)
  | Param b n o None => HUntyped b n o
  end
with member_tree_ind (m : member) : R m :=
  match m with
  | Field d mods n o t => HField d mods n o t (ty_tree_ind t)
  | Method d n ps (Some t) b =>
      HMethod d n ps t b
        ((fix all (l : list param) : Forall Q l :=
            match l with
            | [] => Forall_nil Q
            | x :: r => Forall_cons x (param_tree_ind x) (all r)
            end) ps)
        (ty_tree_ind t)
  | Method d n ps None b =>
      HMethodAny d n ps b
        ((fix all (l : list param) : Forall Q l :=
            match l with
            | [] => Forall_nil Q
            | x :: r => Forall_cons x (param_tree_ind x) (all r)
            end) ps)
  | Ctor d ps b =>
      HCtor d ps b
        ((fix all (l : list param) : Forall Q l :=
            match l with
            | [] => Forall_nil Q
            | x :: r => Forall_cons x (param_tree_ind x) (all r)
            end) ps)
  end.

Lemma tree_ind_all : (forall t, P t) /\ (forall p, Q p) /\ (forall m, R m).
Proof.
  split; [exact ty_tree_ind | split; [exact param_tree_ind | exact member_tree_ind]].
Qed.

End TreeInduction.

(** *** The equality tests decide equality *)

Lemma list_eqb_sound {A : Type} (f : A -> A -> bool) (l : list A) :
  Forall (fun x => forall y, f x y = true -> x = y) l ->
  forall l', list_eqb f l l' = true -> l = l'.
Proof.
  induction 1 as [| x r Hx _ IH]; intros [| y r'] H; simpl in H;
    try discriminate; [reflexivity |].
  apply andb_true_iff in H. destruct H as [Hxy Hr].
  f_equal; [now apply Hx | now apply IH].
Qed.

Lemma list_eqb_refl {A : Type} (f : A -> A -> bool) (l : list A) :
  Forall (fun x => f x x = true) l -> list_eqb f l l = true.
Proof.
  induction 1 as [| x r Hx _ IH]; simpl; [reflexivity |].
  now rewrite Hx, IH.
Qed.

Lemma names_eqb_sound (l l' : list string) :
  list_eqb String.eqb l l' = true -> l = l'.
Proof.
  apply list_eqb_sound. apply Forall_forall. intros x _ y.
  apply String.eqb_eq.
Qed.

Lemma names_eqb_refl (l : list string) : list_eqb String.eqb l l = true.
Proof.
  apply list_eqb_refl. apply Forall_forall. intros x _.
  apply String.eqb_refl.
Qed.

Lemma mods_eqb_sound (l l' : list modifier) :
  list_eqb modifier_eqb l l' = true -> l = l'.
Proof.
  apply list_eqb_sound. apply Forall_forall.
  intros [] _ []; simpl; intros H; (reflexivity || discriminate).
Qed.

Lemma mods_eqb_refl (l : list modifier) : list_eqb modifier_eqb l l = true.
Proof.
  apply list_eqb_refl. apply Forall_forall. intros [] _; reflexivity.
Qed.

Lemma block_eqb_sound (b b' : option block) :
  option_eqb (list_eqb String.eqb) b b' = true -> b = b'.
Proof.
  destruct b, b'; simpl; intros H; try discriminate; [| reflexivity].
  f_equal. now apply names_eqb_sound.
Qed.

Lemma block_eqb_refl (b : option block) :
  option_eqb (list_eqb String.eqb) b b = true.
Proof. destruct b; simpl; [apply names_eqb_refl | reflexivity]. Qed.

Ltac split_all H :=
  repeat match type of H with
         | (_ && _)%bool = true =>
             let H' := fresh H in apply andb_true_iff in H; destruct H as [H H']
         end.

Lemma eqb_sound :
  (forall t t', ty_eqb t t' = true -> t = t')
  /\ (forall p p', param_eqb p p' = true -> p = p')
  /\ (forall m m', member_eqb m m' = true -> m = m').
Proof.
  apply (tree_ind_all
           (fun t => forall t', ty_eqb t t' = true -> t = t')
           (fun p => forall p', param_eqb p p' = true -> p = p')
           (fun m => forall m', member_eqb m m' = true -> m = m')).
  - intros p [q | | | | | |]; simpl; try discriminate.
    destruct p, q; simpl; intros H; (reflexivity || discriminate).
  - intros n [| n' | | | | |]; simpl; try discriminate.
    intros H. apply String.eqb_eq in H. now subst.
  - intros s [| | s' | | | |]; simpl; try discriminate.
    intros H. apply String.eqb_eq in H. now subst.
  - intros e IH [| | | e' | | |]; simpl; try discriminate.
    intros H. f_equal. now apply IH.
  - intros ts IH [| | | | ts' | |]; simpl; try discriminate.
    intros H. f_equal. now apply (list_eqb_sound ty_eqb ts IH).
  - intros ps r IHps IHr [| | | | | ps' r' |]; simpl; try discriminate.
    intros H. split_all H.
    f_equal; [now apply (list_eqb_sound param_eqb ps IHps) | now apply IHr].
  - intros ms IH [| | | | | | ms']; simpl; try discriminate.
    intros H. f_equal. now apply (list_eqb_sound member_eqb ms IH).
  - intros b n o t IH [b' n' o' [t' |]]; simpl; intros H; split_all H;
      try discriminate.
    apply Bool.eqb_prop in H. apply String.eqb_eq in H2.
    apply Bool.eqb_prop in H1. subst. do 2 f_equal. now apply IH.
  - intros b n o [b' n' o' [t' |]]; simpl; intros H; split_all H;
      try discriminate.
    apply Bool.eqb_prop in H. apply String.eqb_eq in H2.
    apply Bool.eqb_prop in H1. now subst.
  - intros d mods n o t IH [d' mods' n' o' t' | |]; simpl; try discriminate.
    intros H. split_all H.
    apply names_eqb_sound in H. apply mods_eqb_sound in H3.
    apply String.eqb_eq in H2. apply Bool.eqb_prop in H1.
    subst. f_equal. now apply IH.
  - intros d n ps t b IHps IHt [| d' n' ps' [t' |] b' |]; simpl;
      try discriminate; intros H; split_all H; try discriminate.
    apply names_eqb_sound in H. apply String.eqb_eq in H3.
    apply (list_eqb_sound param_eqb ps IHps) in H2.
    apply block_eqb_sound in H0. subst. do 2 f_equal. now apply IHt.
  - intros d n ps b IHps [| d' n' ps' [t' |] b' |]; simpl;
      try discriminate; intros H; split_all H; try discriminate.
    apply names_eqb_sound in H. apply String.eqb_eq in H3.
    apply (list_eqb_sound param_eqb ps IHps) in H2.
    apply block_eqb_sound in H0. now subst.
  - intros d ps b IHps [| | d' ps' b']; simpl; try discriminate.
    intros H. split_all H.
    apply names_eqb_sound in H. apply (list_eqb_sound param_eqb ps IHps) in H1.
    apply block_eqb_sound in H0. now subst.
Qed.

Lemma eqb_refl :
  (forall t, ty_eqb t t = true)
  /\ (forall p, param_eqb p p = true)
  /\ (forall m, member_eqb m m = true).
Proof.
  apply (tree_ind_all
           (fun t => ty_eqb t t = true)
           (fun p => param_eqb p p = true)
           (fun m => member_eqb m m = true)); simpl; intros;
    repeat rewrite ?String.eqb_refl, ?Bool.eqb_reflx, ?names_eqb_refl,
      ?mods_eqb_refl, ?block_eqb_refl; simpl;
    repeat match goal with
           | H : Forall _ ?l |- context [list_eqb ?f ?l ?l] =>
               rewrite (list_eqb_refl f l H)
           | H : ?x = true |- context [?x] => rewrite H
           end; simpl; try reflexivity.
  destruct p; reflexivity.
Qed.

Lemma ty_eqb_spec (t t' : ty) : ty_eqb t t' = true <-> t = t'.
Proof.
  split; [apply (proj1 eqb_sound) | intros <-; apply (proj1 eqb_refl)].
Qed.

Lemma member_eqb_spec (m m' : member) : member_eqb m m' = true <-> m = m'.
Proof.
  split; [apply (proj2 (proj2 eqb_sound)) |
          intros <-; apply (proj2 (proj2 eqb_refl))].
Qed.

Lemma members_eqb_sound (l l' : list member) :
  list_eqb member_eqb l l' = true -> l = l'.
Proof.
  apply list_eqb_sound. apply Forall_forall. intros m _ m'.
  apply member_eqb_spec.
Qed.

Lemma nodupb_NoDup (l : list string) : nodupb l = true -> NoDup l.
Proof.
  unfold nodupb. intros H. apply names_eqb_sound in H.
  rewrite <- H. apply NoDup_nodup.
Qed.

(** *** Parameter order *)

Lemma params_ordered_spec (ps : list param) :
  params_ordered ps = true ->
  forall pre p post q, ps = (pre ++ p :: post)%list -> In q post ->
    param_rest p = false
    /\ (param_optional p = true ->
        param_optional q = true \/ param_rest q = true).
Proof.
  intros H pre. revert ps H.
  induction pre as [| x pre IH]; intros ps H p post q -> Hq; simpl in H;
    apply andb_true_iff in H; destruct H as [Hhead Htail].
  - destruct (param_rest p).
    + destruct post; [destruct Hq | discriminate].
    + split; [reflexivity |]. intros Ho. rewrite Ho in Hhead.
      rewrite forallb_forall in Hhead. specialize (Hhead q Hq).
      now apply orb_true_iff in Hhead.
  - now apply (IH (pre ++ p :: post)%list Htail p post q).
Qed.

(** *** Inherited members *)

Section Inheritance.

Variable ds : list decl.
Hypothesis unique : NoDup (class_names ds).

Lemma own_class (c : class) :
  In c (classes ds) -> own ds (c_name c) = c_members c.
Proof.
  intros Hc. unfold own, find_class.
  now rewrite (Facts.find_unique (classes ds) unique c Hc).
Qed.

Lemma own_Has (n : string) (m : member) : In m (own ds n) -> Has ds n m.
Proof.
  unfold own, find_class.
  destruct (find _ (classes ds)) as [c |] eqn:F; [| intros []].
  apply find_some in F. destruct F as [Hc Hn].
  apply String.eqb_eq in Hn. subst n. now constructor.
Qed.

(** A class has the members of its own body and of the bodies of the
    classes above it. *)
Lemma Has_iff (n : string) (m : member) :
  Has ds n m <->
  exists a, (a = n \/ Descends ds n a) /\ In m (own ds a).
Proof.
  split.
  - induction 1 as [c m Hc Hm | n p m Hext _ [a [Ha Hm]]].
    + exists (c_name c). split; [now left | now rewrite own_class].
    + exists a. split; [| assumption]. right.
      destruct Ha as [-> | Ha].
      * now apply t_step.
      * apply t_trans with p; [now apply t_step | assumption].
  - intros [a [[-> | Hd] Hm]]; [now apply own_Has |].
    apply clos_trans_t1n in Hd.
    induction Hd as [x y Hxy | x y z Hxy _ IH].
    + apply Has_inherited with y; [assumption | now apply own_Has].
    + apply Has_inherited with y; [assumption | now apply IH].
Qed.

Lemma ancestors_spec (n a : string) :
  chain ds (S (List.length ds)) n <> None ->
  (Descends ds n a <-> In a (ancestors ds n)).
Proof.
  unfold ancestors. destruct (chain ds _ n) as [l |] eqn:Hc;
    [| intros H; now contradiction H].
  intros _. exact (Facts.chain_spec ds unique _ n l Hc a).
Qed.

Lemma inherited_spec (n : string) (m : member) :
  chain ds (S (List.length ds)) n <> None ->
  (In m (inherited ds n) <->
   exists a, Descends ds n a /\ In m (own ds a)).
Proof.
  intros Hc. unfold inherited. rewrite in_flat_map.
  split; intros [a [Ha Hm]]; exists a; (split; [| assumption]);
    now apply (ancestors_spec n a Hc).
Qed.

Lemma members_of_spec (n : string) (m : member) :
  chain ds (S (List.length ds)) n <> None ->
  (Has ds n m <-> In m (members_of ds n)).
Proof.
  intros Hc. rewrite Has_iff. unfold members_of. rewrite in_app_iff.
  rewrite (inherited_spec n m Hc). split.
  - intros [a [[-> | Hd] Hm]]; [now left | right; now exists a].
  - intros [Hm | [a [Hd Hm]]]; [exists n | exists a]; auto.
Qed.

End Inheritance.

End ExtFacts.

(** ** Further properties of module "AR" *)

Import Ext.

Lemma hierarchy_check_all :
  forallb (hierarchy_check AR.decls) (classes AR.decls) = true.
Proof. vm_compute. reflexivity. Qed.

(** The superclass chain of every class of the module ends. *)
Lemma chains_end (c : class) :
  In c (classes AR.decls) ->
  chain AR.decls (S (List.length AR.decls)) (c_name c) <> None.
Proof.
  intros Hc. pose proof hierarchy_check_all as H.
  rewrite forallb_forall in H. specialize (H c Hc).
  unfold hierarchy_check in H.
  destruct (chain AR.decls _ (c_name c)); [discriminate | discriminate H].
Qed.

Lemma chains_end_named (n : string) :
  In n (class_names AR.decls) ->
  chain AR.decls (S (List.length AR.decls)) n <> None.
Proof.
  unfold class_names. rewrite in_map_iff. intros [c [<- Hc]].
  now apply chains_end.
Qed.

Lemma names_check_all : forallb names_check AR.decls = true.
Proof. vm_compute. reflexivity. Qed.

(** X1.  No name is declared twice: the 57 top-level names of the module
    are pairwise distinct, and so are the member names of every class body
    and of every object type literal, at any depth (constructor overloads
    carry no name). *)
Theorem no_name_declared_twice :
  NoDup (declared AR.decls)
  /\ (forall d b, In d AR.decls -> In b (decl_bodies d) ->
        NoDup (body_names b)).
Proof.
  split.
  - apply ExtFacts.nodupb_NoDup. vm_compute. reflexivity.
  - intros d b Hd Hb. apply ExtFacts.nodupb_NoDup.
    pose proof names_check_all as H. rewrite forallb_forall in H.
    specialize (H d Hd). unfold names_check in H.
    rewrite forallb_forall in H. now apply H.
Qed.

Lemma no_name_declared_twice_witness :
  NoDup (body_names (c_members AR.ImageTracker)).
Proof.
  apply (proj2 no_name_declared_twice (DClass AR.ImageTracker)).
  - unfold AR.decls. walk_list.
  - simpl. left. reflexivity.
Defined.

(** X2.  The class hierarchy is acyclic and shallow: no class of the
    module is its own ancestor, the ancestors of a class are the at most
    four names of its superclass chain, and every ancestor is a class the
    module declares. *)
Theorem hierarchy_acyclic_and_shallow (c : class) :
  In c (classes AR.decls) ->
  ~ Descends AR.decls (c_name c) (c_name c)
  /\ (forall a, Descends AR.decls (c_name c) a
                <-> In a (ancestors AR.decls (c_name c)))
  /\ (List.length (ancestors AR.decls (c_name c)) <= 4)%nat
  /\ (forall a, Descends AR.decls (c_name c) a ->
                In a (class_names AR.decls)).
Proof.
  intros Hc.
  assert (S : forall a, Descends AR.decls (c_name c) a
                        <-> In a (ancestors AR.decls (c_name c))).
  { intros a. apply ExtFacts.ancestors_spec;
      [exact class_names_unique | now apply chains_end]. }
  pose proof hierarchy_check_all as H.
  rewrite forallb_forall in H. specialize (H c Hc).
  unfold hierarchy_check in H. unfold ancestors in *.
  destruct (chain AR.decls _ (c_name c)) as [l |]; [| discriminate].
  split_andb H. repeat split.
  - rewrite S. apply Facts.mem_not_In. now apply negb_true_iff.
  - apply S.
  - apply S.
  - now apply Nat.leb_le.
  - intros a Ha. apply S in Ha. rewrite forallb_forall in H0.
    apply Facts.mem_In. now apply H0.
Qed.

Lemma hierarchy_acyclic_and_shallow_witness :
  ~ Descends AR.decls "AnimatedImageDrawable" "AnimatedImageDrawable"
  /\ (forall a, Descends AR.decls "AnimatedImageDrawable" a
                <-> In a (ancestors AR.decls "AnimatedImageDrawable"))
  /\ (List.length (ancestors AR.decls "AnimatedImageDrawable") <= 4)%nat
  /\ (forall a, Descends AR.decls "AnimatedImageDrawable" a ->
                In a (class_names AR.decls)).
Proof.
  apply (hierarchy_acyclic_and_shallow AR.AnimatedImageDrawable).
  apply Facts.in_classes. unfold AR.decls. walk_list.
Defined.

Lemma implements_check_all :
  forallb (implements_check AR.decls) (classes AR.decls) = true.
Proof. vm_compute. reflexivity. Qed.

(** X3.  Every [implements] clause is honoured: the class it names is
    declared in the module, and for each member that class has, own or
    inherited, the implementing class has, own or inherited, a field of
    the same name and the same type. *)
Theorem implements_conformance (c : class) (i : string) (m : member) :
  In c (classes AR.decls) -> In i (c_implements c) -> Has AR.decls i m ->
  In i (class_names AR.decls)
  /\ exists k t m',
       member_name m = Some k /\ field_ty m = Some t
       /\ Has AR.decls (c_name c) m'
       /\ member_name m' = Some k /\ field_ty m' = Some t.
Proof.
  intros Hc Hi Hm.
  pose proof implements_check_all as H. rewrite forallb_forall in H.
  specialize (H c Hc). unfold implements_check in H.
  rewrite forallb_forall in H. specialize (H i Hi). split_andb H.
  apply Facts.mem_In in H. split; [assumption |].
  apply (ExtFacts.members_of_spec AR.decls class_names_unique i m
           (chains_end_named i H)) in Hm.
  rewrite forallb_forall in H0. specialize (H0 m Hm).
  unfold conforms in H0.
  destruct (member_name m) as [k |]; [| discriminate].
  destruct (field_ty m) as [t |]; [| discriminate].
  apply existsb_exists in H0. destruct H0 as [m' [Hin Hm']].
  split_andb Hm'. exists k, t, m'.
  repeat split.
  - apply (ExtFacts.members_of_spec AR.decls class_names_unique);
      [now apply chains_end | assumption].
  - now apply named_spec.
  - destruct (field_ty m') as [t' |]; simpl in Hm'0; [| discriminate].
    apply ExtFacts.ty_eqb_spec in Hm'0. now subst.
Qed.

Lemma implements_conformance_witness :
  In "Drawable2DOptions" (class_names AR.decls)
  /\ exists k t m',
       member_name (fld_opt "onscaleEnded" AR.scale_cb) = Some k
       /\ field_ty (fld_opt "onscaleEnded" AR.scale_cb) = Some t
       /\ Has AR.decls (c_name AR.Drawable2D) m'
       /\ member_name m' = Some k /\ field_ty m' = Some t.
Proof.
  apply (implements_conformance AR.Drawable2D "Drawable2DOptions").
  - apply Facts.in_classes. unfold AR.decls. walk_list.
  - left. reflexivity.
  - apply ExtFacts.Has_iff; [exact class_names_unique |].
    exists "_EVENT_HANDLERS". split.
    + right. apply t_trans with "DrawableOptions";
        apply t_step; apply Facts.parent_Extends; reflexivity.
    + assert (E : own AR.decls "_EVENT_HANDLERS" = c_members AR._EVENT_HANDLERS)
        by reflexivity.
      rewrite E. simpl. walk_list.
Defined.

Lemma refs_check_all : forallb (refs_check AR.decls) AR.decls = true.
Proof. vm_compute. reflexivity. Qed.

(** X4.  The module is closed but for three names: a type name is used in
    the module without being declared in it exactly when it is Error,
    Geolocation or Element. *)
Theorem external_names (n : string) :
  ((exists d, In d AR.decls /\ In n (decl_refs d))
   /\ ~ In n (declared AR.decls))
  <-> In n externals.
Proof.
  split.
  - intros [[d [Hd Hn]] Hnot].
    pose proof refs_check_all as H. rewrite forallb_forall in H.
    specialize (H d Hd). unfold refs_check in H.
    rewrite forallb_forall in H. specialize (H n Hn).
    apply orb_true_iff in H. destruct H as [H | H]; apply Facts.mem_In in H;
      [contradiction | assumption].
  - intros [<- | [<- | [<- | []]]]; (split; [| apply Facts.mem_not_In; reflexivity]).
    + exists AR.ErrorCallback. split; [unfold AR.decls; walk_list |].
      apply Facts.mem_In. reflexivity.
    + exists (DClass AR.ActionArea). split; [unfold AR.decls; walk_list |].
      apply Facts.mem_In. reflexivity.
    + exists (DClass AR.radar). split; [unfold AR.decls; walk_list |].
      apply Facts.mem_In. reflexivity.
Qed.

Lemma override_check_all :
  forallb (override_check AR.decls) (classes AR.decls) = true.
Proof. vm_compute. reflexivity. Qed.

(** X5.  A class redeclares an inherited member in one place only,
    [drawables] of GeoObject, and there it narrows the type: the new type
    names a class below the class the inherited type names. *)
Theorem overrides_narrow (c : class) (m m' : member) (a k : string) :
  In c (classes AR.decls) -> In m (c_members c) ->
  Descends AR.decls (c_name c) a -> In m' (own AR.decls a) ->
  member_name m = Some k -> member_name m' = Some k ->
  c_name c = "GeoObject" /\ k = "drawables"
  /\ exists t t', field_ty m = Some (TRef t) /\ field_ty m' = Some (TRef t')
                  /\ (t = t' \/ Descends AR.decls t t').
Proof.
  intros Hc Hm Ha Hm' Hk Hk'.
  assert (Hin : In m' (inherited AR.decls (c_name c))).
  { apply (ExtFacts.inherited_spec AR.decls class_names_unique);
      [now apply chains_end | now exists a]. }
  pose proof override_check_all as H. rewrite forallb_forall in H.
  specialize (H c Hc). unfold override_check in H.
  rewrite forallb_forall in H. specialize (H m Hm). rewrite Hk in H.
  rewrite forallb_forall in H. specialize (H m' Hin).
  apply named_spec in Hk'. rewrite Hk' in H. simpl in H. split_andb H.
  apply String.eqb_eq in H. apply String.eqb_eq in H1.
  split; [assumption | split; [assumption |]].
  destruct (field_ty m) as [[p | t | s | e | ts | ps r | ms] |];
    destruct (field_ty m') as [[p' | t' | s' | e' | ts' | ps' r' | ms'] |];
    simpl in H0; try discriminate.
  exists t, t'. split; [reflexivity | split; [reflexivity |]].
  apply orb_true_iff in H0. destruct H0 as [E | E].
  - left. now apply String.eqb_eq.
  - right. now apply (Facts.descendsb_true AR.decls class_names_unique).
Qed.

Lemma overrides_narrow_witness :
  c_name AR.GeoObject = "GeoObject" /\ "drawables" = "drawables"
  /\ exists t t',
       field_ty (fld "drawables" (TRef "GeoObjectDrawables")) = Some (TRef t)
       /\ field_ty (fld "drawables" (TRef "ARObjectDrawables")) = Some (TRef t')
       /\ (t = t' \/ Descends AR.decls t t').
Proof.
  apply (overrides_narrow AR.GeoObject
           (fld "drawables" (TRef "GeoObjectDrawables"))
           (fld "drawables" (TRef "ARObjectDrawables")) "ARObject" "drawables").
  - apply Facts.in_classes. unfold AR.decls. walk_list.
  - left. reflexivity.
  - apply t_step. apply Facts.parent_Extends. reflexivity.
  - assert (E : own AR.decls "ARObject" = c_members AR.ARObject) by reflexivity.
    rewrite E. left. reflexivity.
  - reflexivity.
  - reflexivity.
Defined.

Lemma params_check_all : forallb params_check AR.decls = true.
Proof. vm_compute. reflexivity. Qed.

(** X6.  Parameter lists are well ordered everywhere, in methods,
    constructors and callback types at any depth: a rest parameter has no
    parameter after it, and after an optional parameter come optional or
    rest parameters only. *)
Theorem parameters_ordered (d : decl) (ps pre post : list param) (p q : param) :
  In d AR.decls -> In ps (decl_param_lists d) ->
  ps = (pre ++ p :: post)%list -> In q post ->
  param_rest p = false
  /\ (param_optional p = true ->
      param_optional q = true \/ param_rest q = true).
Proof.
  intros Hd Hps Hsplit Hq.
  pose proof params_check_all as H. rewrite forallb_forall in H.
  specialize (H d Hd). unfold params_check in H.
  rewrite forallb_forall in H. specialize (H ps Hps).
  now apply (ExtFacts.params_ordered_spec ps H pre p post q).
Qed.

Lemma parameters_ordered_witness :
  param_rest (arg_opt "options"
                (TObj [fld_opt "onStart" thunk; fld_opt "onFinish" thunk]))
  = false
  /\ (param_optional
        (arg_opt "options"
           (TObj [fld_opt "onStart" thunk; fld_opt "onFinish" thunk])) = true ->
      param_optional (arg_opt "duration" tnumber) = true
      \/ param_rest (arg_opt "duration" tnumber) = true).
Proof.
  apply (parameters_ordered (DClass AR.ModelAnimation)
           [arg "model" (TRef "Model");
            arg "animationId" tstring;
            arg_opt "options"
              (TObj [fld_opt "onStart" thunk; fld_opt "onFinish" thunk]);
            arg_opt "duration" tnumber]
           [arg "model" (TRef "Model"); arg "animationId" tstring]
           [arg_opt "duration" tnumber]).
  - unfold AR.decls. walk_list.
  - simpl. left. reflexivity.
  - reflexivity.
  - left. reflexivity.
Defined.

Lemma member_eqb_In (m : member) (l : list member) :
  existsb (member_eqb m) l = true -> In m l.
Proof.
  intros H. apply existsb_exists in H. destruct H as [x [Hx E]].
  apply ExtFacts.member_eqb_spec in E. now subst.
Qed.




Lemma options_check_all :
  forallb (options_check AR.decls) (classes AR.decls) = true.
Proof. vm_compute. reflexivity. Qed.

(** X8.  Inline constructor options mirror the members of the class: each
    property of an object type literal that a constructor takes as
    [options] has the name of a field the class declares or inherits, and
    the type of that field, except in two places, onError of ImageResource
    and deviceHeight of InstantTracker, where the two types differ. *)
Theorem constructor_options_mirror_members (c : class) (m o : member) :
  In c (classes AR.decls) -> In m (c_members c) -> In o (inline_options m) ->
  exists k t m' t',
    member_name o = Some k /\ field_ty o = Some t
    /\ Has AR.decls (c_name c) m'
    /\ member_name m' = Some k /\ field_ty m' = Some t'
    /\ (t' = t <-> ~ In (site (c_name c) k) option_type_slips).
Proof.
  intros Hc Hm Ho.
  pose proof options_check_all as H. rewrite forallb_forall in H.
  specialize (H c Hc). unfold options_check in H.
  rewrite forallb_forall in H. specialize (H m Hm).
  rewrite forallb_forall in H. specialize (H o Ho).
  destruct (member_name o) as [k |]; [| discriminate].
  destruct (field_ty o) as [t |]; [| discriminate].
  destruct (find (named k) (members_of AR.decls (c_name c))) as [m' |] eqn:F;
    [| discriminate].
  destruct (field_ty m') as [t' |] eqn:T; [| discriminate].
  apply find_some in F. destruct F as [Hin Hnamed].
  exists k, t, m', t'. repeat split; try assumption.
  - apply (ExtFacts.members_of_spec AR.decls class_names_unique);
      [now apply chains_end | assumption].
  - now apply named_spec.
  - intros E. apply ExtFacts.ty_eqb_spec in E. rewrite E in H.
    apply Bool.eqb_prop in H. symmetry in H. apply negb_true_iff in H.
    now apply Facts.mem_not_In.
  - intros E. apply Facts.mem_not_In in E. rewrite E in H. simpl in H.
    apply Bool.eqb_prop in H. now apply ExtFacts.ty_eqb_spec.
Qed.

Lemma constructor_options_mirror_members_witness :
  exists k t m' t',
    member_name (fld_opt "deviceHeight" tnumber) = Some k
    /\ field_ty (fld_opt "deviceHeight" tnumber) = Some t
    /\ Has AR.decls (c_name AR.InstantTracker) m'
    /\ member_name m' = Some k /\ field_ty m' = Some t'
    /\ (t' = t <-> ~ In (site (c_name AR.InstantTracker) k) option_type_slips).
Proof.
  apply (constructor_options_mirror_members AR.InstantTracker
           (ctor [arg_opt "options"
                    (TObj [fld_opt "enabled" tboolean;
                           fld_opt "onError" thunk;
                           fld_opt "onDisabled" thunk;
                           fld_opt "onChangedState" thunk;
                           fld_opt "deviceHeight" tnumber])])).
  - apply Facts.in_classes. unfold AR.decls. walk_list.
  - simpl. walk_list.
  - simpl. walk_list.
Defined.

Lemma destroy_check_all :
  forallb (destroy_check AR.decls) (classes AR.decls) = true.
Proof. vm_compute. reflexivity. Qed.

(** X9.  [destroy] and [destroyed] reach every class below ARchitectObject
    unchanged: a class of the module has a member of either name exactly
    when it is not a helper class, and then the member is the one
    ARchitectObject declares; no class redeclares them. *)
Theorem destroy_is_inherited_unchanged (c : class) (m : member) :
  In c (classes AR.decls) ->
  member_name m = Some "destroy" \/ member_name m = Some "destroyed" ->
  (Has AR.decls (c_name c) m
   <-> In m (c_members AR.ARchitectObject)
       /\ ~ In (c_name c) Spec.helper_classes).
Proof.
  intros Hc Hname.
  assert (Hd : destroy_member m = true).
  { unfold destroy_member. apply orb_true_iff.
    destruct Hname as [E | E]; [left | right]; now apply named_spec. }
  pose proof destroy_check_all as H. rewrite forallb_forall in H.
  specialize (H c Hc). unfold destroy_check in H.
  apply ExtFacts.members_eqb_sound in H.
  rewrite (ExtFacts.members_of_spec AR.decls class_names_unique (c_name c) m
             (chains_end c Hc)).
  assert (F : In m (members_of AR.decls (c_name c))
              <-> In m (filter destroy_member (members_of AR.decls (c_name c)))).
  { rewrite filter_In. tauto. }
  rewrite F, H.
  destruct (mem (c_name c) Spec.helper_classes) eqn:E.
  - apply Facts.mem_In in E. split; [intros [] | intros [_ N]; contradiction].
  - apply Facts.mem_not_In in E. tauto.
Qed.

Lemma destroy_is_inherited_unchanged_witness :
  Has AR.decls (c_name AR.Sound) (meth "destroy" [] tvoid)
  <-> In (meth "destroy" [] tvoid) (c_members AR.ARchitectObject)
      /\ ~ In (c_name AR.Sound) Spec.helper_classes.
Proof.
  apply (destroy_is_inherited_unchanged AR.Sound (meth "destroy" [] tvoid)).
  - apply Facts.in_classes. unfold AR.decls. walk_list.
  - left. reflexivity.
Defined.

Lemma gesture_check_all :
  forallb gesture_check (c_members AR._EVENT_HANDLERS) = true.
Proof. vm_compute. reflexivity. Qed.

(** X10.  The gesture handlers agree across their carriers, up to the drag
    handlers of [context]: every handler of _EVENT_HANDLERS is declared
    identically by Drawable and by ARObject; [context] declares all of them
    but onClick, optional and with the same type, except onDragBegan,
    onDragChanged and onDragEnded, which take two numbers there instead of
    four. *)
Theorem gesture_handlers_agree (m : member) :
  In m (c_members AR._EVENT_HANDLERS) ->
  In m (c_members AR.Drawable) /\ In m (c_members AR.ARObject)
  /\ exists k t,
       member_name m = Some k /\ field_ty m = Some t
       /\ (k = "onClick" -> ~ In k (own_names AR.context))
       /\ (k <> "onClick" ->
           exists m' t',
             In m' (own_members AR.context)
             /\ member_name m' = Some k /\ member_optional m' = true
             /\ field_ty m' = Some t'
             /\ (t' = t <-> ~ In k drag_names)
             /\ (In k drag_names -> t' = AR.pan_cb)).
Proof.
  intros Hm. pose proof gesture_check_all as H.
  rewrite forallb_forall in H. specialize (H m Hm).
  unfold gesture_check in H. split_andb H.
  split; [now apply member_eqb_In | split; [now apply member_eqb_In |]].
  destruct (member_name m) as [k |]; [| discriminate].
  destruct (field_ty m) as [t |]; [| discriminate].
  exists k, t. split; [reflexivity | split; [reflexivity |]].
  destruct (String.eqb k "onClick") eqn:K.
  - apply String.eqb_eq in K. split; [| intros N; contradiction].
    intros _. apply Facts.mem_not_In. now apply negb_true_iff.
  - apply String.eqb_neq in K. split; [intros E; contradiction | intros _].
    destruct (find (named k) (own_members AR.context)) as [m' |] eqn:F;
      [| discriminate].
    apply find_some in F. destruct F as [Hin Hnamed].
    split_andb H0. destruct (field_ty m') as [t' |] eqn:T; [| discriminate].
    split_andb H2. exists m', t'.
    split; [assumption |]. split; [now apply named_spec |].
    split; [assumption |]. split; [assumption |].
    apply Bool.eqb_prop in H2. split.
    + rewrite <- Facts.mem_not_In, <- ExtFacts.ty_eqb_spec, H2.
      apply negb_true_iff.
    + intros D. apply Facts.mem_In in D. rewrite D in H3. simpl in H3.
      now apply ExtFacts.ty_eqb_spec.
Qed.

Lemma gesture_handlers_agree_witness :
  In (fld_opt "onDragEnded" AR.drag_cb) (c_members AR.Drawable)
  /\ In (fld_opt "onDragEnded" AR.drag_cb) (c_members AR.ARObject)
  /\ exists k t,
       member_name (fld_opt "onDragEnded" AR.drag_cb) = Some k
       /\ field_ty (fld_opt "onDragEnded" AR.drag_cb) = Some t
       /\ (k = "onClick" -> ~ In k (own_names AR.context))
       /\ (k <> "onClick" ->
           exists m' t',
             In m' (own_members AR.context)
             /\ member_name m' = Some k /\ member_optional m' = true
             /\ field_ty m' = Some t'
             /\ (t' = t <-> ~ In k drag_names)
             /\ (In k drag_names -> t' = AR.pan_cb)).
Proof.
  apply (gesture_handlers_agree (fld_opt "onDragEnded" AR.drag_cb)).
  simpl. walk_list.
Defined.

Lemma literal_check_all : forallb literal_check AR.decls = true.
Proof. vm_compute. reflexivity. Qed.

(** X11.  The string constants follow their keys: a property typed with a
    string literal, at any depth of any declaration, has as its literal
    the camelCase form of its UPPER_SNAKE name, and within one body no two
    properties have the same literal. *)
Theorem literal_values_follow_keys (d : decl) (b : list member) :
  In d AR.decls -> In b (decl_bodies d) ->
  NoDup (body_literals b)
  /\ (forall m v, In m b -> literal_of m = Some v ->
        exists k, member_name m = Some k /\ v = camel k).
Proof.
  intros Hd Hb. pose proof literal_check_all as H.
  rewrite forallb_forall in H. specialize (H d Hd).
  unfold literal_check in H. rewrite forallb_forall in H.
  specialize (H b Hb). split_andb H. split.
  - now apply ExtFacts.nodupb_NoDup.
  - intros m v Hm Hv. rewrite forallb_forall in H0. specialize (H0 m Hm).
    rewrite Hv in H0. destruct (member_name m) as [k |]; [| discriminate].
    exists k. split; [reflexivity | now apply String.eqb_eq].
Qed.

Lemma literal_values_follow_keys_witness :
  NoDup (body_literals (c_members AR.EASING_CURVE_TYPE))
  /\ (forall m v, In m (c_members AR.EASING_CURVE_TYPE) ->
        literal_of m = Some v ->
        exists k, member_name m = Some k /\ v = camel k).
Proof.
  apply (literal_values_follow_keys (DClass AR.EASING_CURVE_TYPE)).
  - unfold AR.decls. walk_list.
  - left. reflexivity.
Defined.

Lemma results_check_all : forallb results_check AR.decls = true.
Proof. vm_compute. reflexivity. Qed.

(** X12.  Callbacks give nothing back: every function type written in the
    module, at any depth of any declaration, has result type [void], and
    every type alias of the module is such a function type. *)
Theorem callbacks_return_void (d : decl) :
  In d AR.decls ->
  (forall r, In r (decl_results d) -> r = TPrim Pvoid)
  /\ (forall n t, d = DType n t -> exists ps, t = TFun ps (TPrim Pvoid)).
Proof.
  intros Hd. pose proof results_check_all as H.
  rewrite forallb_forall in H. specialize (H d Hd).
  unfold results_check in H. split_andb H.
  rewrite forallb_forall in H.
  split.
  - intros r Hr. apply ExtFacts.ty_eqb_spec. now apply H.
  - intros n t ->. destruct t as [p | k | s | e | ts | ps r | ms];
      try discriminate.
    exists ps. f_equal. apply ExtFacts.ty_eqb_spec. apply H. left. reflexivity.
Qed.

Lemma callbacks_return_void_witness :
  (forall r, In r (decl_results AR.callback) -> r = TPrim Pvoid)
  /\ (forall n t, AR.callback = DType n t -> exists ps, t = TFun ps (TPrim Pvoid)).
Proof.
  apply (callbacks_return_void AR.callback).
  unfold AR.decls. walk_list.
Defined.





